(** * A shallow embedding of securedrop-export's disk export path

    The Python code is modelled in a small exception-and-state monad:
    - the state is the object's mutable attributes ([self.device],
      [self.encrypted_device], ...) together with the trace of observable
      effects (spawned subprocesses with their argv, environment and stdin,
      writes to [sys.stderr], log lines, filesystem deletions);
    - the operating system is an oracle [Env] that answers each spawned
      command (given everything that happened before) and each filesystem
      query;
    - Python exceptions, including [SystemExit] raised by [sys.exit], are
      the error branch of the monad, with [try]/[except]/[finally] written
      out as in the language. *)

From Stdlib Require Import String Ascii List ZArith Bool Lia.
Import ListNotations.
Open Scope list_scope.
Open Scope string_scope.

(* ------------------------------------------------------------------ *)
(** ** Python strings *)

Module PyStr.

(** [bytes.isspace()] on one byte: the separators of [bytes.split()]. *)
Definition is_ws (c : ascii) : bool :=
  match nat_of_ascii c with
  | 32 | 9 | 10 | 11 | 12 | 13 => true
  | _ => false
  end.

(** [str.isspace()] on one character. A [str] here is decoded text whose
    characters all have code points below 256, one [ascii] each; besides
    the ASCII whitespace, Python counts the separators \x1c-\x1f, U+0085
    and U+00A0 as whitespace. *)
Definition is_space (c : ascii) : bool :=
  match nat_of_ascii c with
  | 9 | 10 | 11 | 12 | 13 | 28 | 29 | 30 | 31 | 32 | 133 | 160 => true
  | _ => false
  end.

(** [s.split(c)] for a one-character separator: keeps empty pieces. *)
Fixpoint split_char (c : ascii) (s : string) : list string :=
  match s with
  | EmptyString => [EmptyString]
  | String x rest =>
      if Ascii.eqb x c then EmptyString :: split_char c rest
      else match split_char c rest with
           | [] => [String x EmptyString]
           | w :: ws => String x w :: ws
           end
  end.

(** [s.split()] with no argument, whitespace given by [ws]: runs of
    whitespace separate words, leading and trailing whitespace produce no
    empty words. *)
Fixpoint split_on_aux (ws : ascii -> bool) (cur : string) (s : string)
  : list string :=
  match s with
  | EmptyString => if String.eqb cur "" then [] else [cur]
  | String x rest =>
      if ws x then
        app (if String.eqb cur "" then [] else [cur]) (split_on_aux ws "" rest)
      else split_on_aux ws (cur ++ String x EmptyString) rest
  end.

(** [b.split()] on bytes *)
Definition split_ws (s : string) : list string := split_on_aux is_ws "" s.

(** [s.split()] on a [str] *)
Definition str_split (s : string) : list string := split_on_aux is_space "" s.

(** Every character of [s] satisfies [p]. *)
Fixpoint all_chars (p : ascii -> bool) (s : string) : bool :=
  match s with
  | EmptyString => true
  | String c rest => p c && all_chars p rest
  end.

(** [s.lstrip()] on a [str] *)
Fixpoint lstrip (s : string) : string :=
  match s with
  | String x rest => if is_space x then lstrip rest else s
  | EmptyString => EmptyString
  end.

Fixpoint rev_str (s : string) (acc : string) : string :=
  match s with
  | EmptyString => acc
  | String x rest => rev_str rest (String x acc)
  end.

(** [s.strip()] on a [str] *)
Definition strip (s : string) : string :=
  rev_str (lstrip (rev_str (lstrip s) "")) "".

(** [needle in hay] for strings *)
Fixpoint contains (needle hay : string) : bool :=
  String.prefix needle hay ||
  match hay with
  | EmptyString => false
  | String _ rest => contains needle rest
  end.

(** [lst.count(x)] on a list of strings *)
Definition count (x : string) (l : list string) : nat :=
  length (filter (String.eqb x) l).

(** [os.path.join(a, b)] for two components *)
Definition path_join (a b : string) : string :=
  if String.prefix "/" b then b
  else if String.eqb a "" then b
  else if String.eqb (substring (String.length a - 1) 1 a) "/" then a ++ b
  else a ++ "/" ++ b.

(** [stream.readlines()]: every line keeps its newline; a last line without
    a newline is kept; no empty line after a final newline. *)
Definition readlines (s : string) : list string :=
  let pieces := split_char "010"%char s in
  let fix go (ps : list string) : list string :=
      match ps with
      | [] => []
      | [p] => if String.eqb p "" then [] else [p]
      | p :: rest => (p ++ String "010"%char EmptyString) :: go rest
      end in
  go pieces.

(** [int(s)] on a decimal [str]: surrounding whitespace, an optional sign,
    digits with single underscores between them. [None] is a [ValueError]. *)
Definition digit_val (c : ascii) : option Z :=
  let n := nat_of_ascii c in
  if (48 <=? n)%nat && (n <=? 57)%nat then Some (Z.of_nat n - 48)%Z else None.

Fixpoint parse_digits (acc : Z) (prev_digit : bool) (s : string) : option Z :=
  match s with
  | EmptyString => if prev_digit then Some acc else None
  | String c rest =>
      match digit_val c with
      | Some d => parse_digits (acc * 10 + d)%Z true rest
      | None =>
          if Ascii.eqb c "_" && prev_digit then
            match rest with
            | String c' _ =>
                match digit_val c' with
                | Some _ => parse_digits acc false rest
                | None => None
                end
            | EmptyString => None
            end
          else None
      end
  end.

Definition py_int (s : string) : option Z :=
  match strip s with
  | String c rest =>
      if Ascii.eqb c "-" then option_map Z.opp (parse_digits 0 false rest)
      else if Ascii.eqb c "+" then parse_digits 0 false rest
      else parse_digits 0 false (String c rest)
  | EmptyString => None
  end.

End PyStr.

(* ------------------------------------------------------------------ *)
(** ** Python values, exceptions and observable events *)

(** The values that flow into [exit_gracefully] and [sys.stderr.write]. *)
Inductive pyval :=
  | PyNone
  | PyBool (b : bool)
  | PyStr (s : string)
  | PyBytes (s : string)
  | PyEnum (name : string)                 (* a member of [ExportStatus] *)
  | PyCPE (rc : Z) (output : pyval).       (* a [CalledProcessError] object *)

Definition truthy (v : pyval) : bool :=
  match v with
  | PyNone => false
  | PyBool b => b
  | PyStr s | PyBytes s => negb (String.eqb s "")
  | PyEnum _ | PyCPE _ _ => true
  end.

(** [str(v)] as used by logging *)
Definition py_str (v : pyval) : string :=
  match v with
  | PyNone => "None"
  | PyBool true => "True"
  | PyBool false => "False"
  | PyStr s => s
  | PyBytes s => "b'" ++ s ++ "'"
  | PyEnum n => "ExportStatus." ++ n
  | PyCPE _ _ => "Command returned non-zero exit status."
  end.

Inductive exn :=
  | SystemExit (code : Z)
  | CalledProcessError (rc : Z) (output : pyval)
  | OSError
  | TypeError
  | ValueError
  | IndexError
  | AttributeError.

(** [except Exception] catches everything but [SystemExit]. *)
Definition is_Exception (e : exn) : bool :=
  match e with SystemExit _ => false | _ => true end.

Definition is_CPE (e : exn) : bool :=
  match e with CalledProcessError _ _ => true | _ => false end.

(** What the operating system answers for a spawned command. *)
Inductive cmd_result :=
  | Ran (rc : Z) (out : string)
  | NotFound.                              (* the executable is missing *)

Inductive stdin_src :=
  | NoStdin                                (* inherited, nothing sent *)
  | FromPipe                               (* the previous command's stdout *)
  | Piped                                  (* [stdin=PIPE], nothing sent yet *)
  | Input (data : string).                 (* [communicate(input=...)] *)

Inductive event :=
  | Spawn (argv : list string) (envp : option (list (string * string)))
          (stdin : stdin_src) (res : cmd_result)
          (* [envp = None]: the child inherits the parent's environment *)
  | Stderr (s : string)
  | Log (s : string)
  | Rmtree (path : string)
  | Call (meth : string).                  (* a method invoked by [__main__] *)

Definition ExportStatus (name : string) : pyval := PyEnum name.
Definition value (name : string) : pyval := PyStr name.

Definition nl : string := String "010"%char EmptyString.

(** The parsed [metadata.json] (export.py, [Metadata.__init__]): each field
    is whatever [json_config.get(...)] returned. *)
Record Metadata := mkMetadata {
  export_method : pyval;
  encryption_method : pyval;
  encryption_key : pyval
}.

(** The operating system, as seen by the program: each answer may depend
    on everything observable that happened before. *)
Record Env := mkEnv {
  run_cmd : list event -> list string -> stdin_src -> cmd_result;
  fs_exists : list event -> string -> bool;
  fs_isdir : list event -> string -> bool;
  fs_rmtree_ok : list event -> string -> bool;
  tar_extract_ok : list event -> bool;
  read_metadata : list event -> option Metadata;  (* [None]: parsing raised *)
  fs_listdir : list event -> string -> option (list string)
                                          (* [None]: [os.listdir] raised *)
}.

(** The attributes of the export object ([SDExport] in export.py, the
    [USBActionMixin] attributes in usb/actions.py) and the effect trace,
    oldest event first. [unset] lists the attributes among [mountpoint] and
    [encrypted_device] that the object was never given: reading one of
    them raises [AttributeError] (see [USB.self_attr]); the field's value
    is then irrelevant. *)
Record St := mkSt {
  trace : list event;
  device : option string;                 (* [Optional[str]] *)
  mountpoint : string;
  encrypted_device : string;
  tmpdir : string;
  target_dirname : string;
  archive_metadata : option Metadata;
  unset : list string
}.

Definition remove_attr (n : string) (l : list string) : list string :=
  filter (fun x => negb (String.eqb x n)) l.

Definition set_trace (t : list event) (s : St) : St :=
  mkSt t (device s) (mountpoint s) (encrypted_device s) (tmpdir s)
       (target_dirname s) (archive_metadata s) (unset s).
Definition set_device (d : option string) (s : St) : St :=
  mkSt (trace s) d (mountpoint s) (encrypted_device s) (tmpdir s)
       (target_dirname s) (archive_metadata s) (unset s).
(** [self.encrypted_device = n]: the attribute exists from now on. *)
Definition set_encrypted_device (n : string) (s : St) : St :=
  mkSt (trace s) (device s) (mountpoint s) n (tmpdir s)
       (target_dirname s) (archive_metadata s)
       (remove_attr "encrypted_device" (unset s)).
Definition set_archive_metadata (m : option Metadata) (s : St) : St :=
  mkSt (trace s) (device s) (mountpoint s) (encrypted_device s) (tmpdir s)
       (target_dirname s) m (unset s).

(* ------------------------------------------------------------------ *)
(** ** The exception-and-state monad *)

Inductive res (A : Type) := Ok (a : A) | Exc (e : exn).
Arguments Ok {A} a.
Arguments Exc {A} e.

Definition M (A : Type) : Type := Env -> St -> res A * St.

Definition ret {A} (a : A) : M A := fun _ st => (Ok a, st).

Definition bind {A B} (m : M A) (k : A -> M B) : M B :=
  fun env st =>
    match m env st with
    | (Ok a, st1) => k a env st1
    | (Exc e, st1) => (Exc e, st1)
    end.

Notation "x <- m ;; k" := (bind m (fun x => k))
  (at level 61, m at next level, right associativity).
Notation "m ;; k" := (bind m (fun _ => k))
  (at level 61, right associativity).

Definition raise {A} (e : exn) : M A := fun _ st => (Exc e, st).

Definition gets {A} (f : St -> A) : M A := fun _ st => (Ok (f st), st).
Definition modify (f : St -> St) : M unit := fun _ st => (Ok tt, f st).
Definition asks {A} (f : Env -> list event -> A) : M A :=
  fun env st => (Ok (f env (trace st)), st).

Definition emit (ev : event) : M unit :=
  fun _ st => (Ok tt, set_trace (app (trace st) [ev]) st).

(** [try: m except <catches> as e: h(e)] *)
Definition try_except {A} (m : M A) (catches : exn -> bool) (h : exn -> M A)
  : M A :=
  fun env st =>
    match m env st with
    | (Exc e, st1) => if catches e then h e env st1 else (Exc e, st1)
    | r => r
    end.

(** [try: m finally: fin]: an exception raised by [fin] replaces the
    outcome of [m]. *)
Definition try_finally {A} (m : M A) (fin : M unit) : M A :=
  fun env st =>
    let (r, st1) := m env st in
    let (r2, st2) := fin env st1 in
    match r2 with
    | Exc e => (Exc e, st2)
    | Ok _ => (r, st2)
    end.

(* ------------------------------------------------------------------ *)
(** ** The library calls the code makes *)

(** Start a child process: [Popen] with no [env=] argument. *)
Definition spawn (argv : list string) (stdin : stdin_src) : M cmd_result :=
  fun env st =>
    let r := run_cmd env (trace st) argv stdin in
    (Ok r, set_trace (app (trace st) [Spawn argv None stdin r]) st).

(** [subprocess.check_call(argv)]: nothing is captured, so a raised
    [CalledProcessError] has [output = None]. *)
Definition check_call (argv : list string) : M unit :=
  r <- spawn argv NoStdin ;;
  match r with
  | NotFound => raise OSError
  | Ran rc _ => if Z.eqb rc 0 then ret tt
                else raise (CalledProcessError rc PyNone)
  end.

(** [subprocess.check_output(argv)]: the output is bytes. *)
Definition check_output (argv : list string) : M string :=
  r <- spawn argv NoStdin ;;
  match r with
  | NotFound => raise OSError
  | Ran rc out => if Z.eqb rc 0 then ret out
                  else raise (CalledProcessError rc (PyBytes out))
  end.

(** [p = Popen(argv, stdin=PIPE, ...); p.communicate(input=data);
    p.returncode] *)
Definition popen_communicate (argv : list string) (data : string) : M Z :=
  r <- spawn argv (Input data) ;;
  match r with
  | NotFound => raise OSError
  | Ran rc _ => ret rc
  end.

(** [sys.stderr.write(v)]: only a [str] is accepted. *)
Definition write_stderr (v : pyval) : M unit :=
  match v with
  | PyStr s => emit (Stderr s)
  | _ => raise TypeError
  end.

Definition log (s : string) : M unit := emit (Log s).

Definition sys_exit {A} (code : Z) : M A := raise (SystemExit code).

Definition os_path_exists (p : string) : M bool :=
  asks (fun env t => fs_exists env t p).

Definition os_path_isdir (p : string) : M bool :=
  asks (fun env t => fs_isdir env t p).

Definition shutil_rmtree (p : string) : M unit :=
  ok <- asks (fun env t => fs_rmtree_ok env t p) ;;
  if ok then emit (Rmtree p) else raise OSError.

(** [os.listdir(p)]: a missing or unreadable directory raises [OSError]
    ([FileNotFoundError], [NotADirectoryError], ...). *)
Definition os_listdir (p : string) : M (list string) :=
  r <- asks (fun env t => fs_listdir env t p) ;;
  match r with
  | Some l => ret l
  | None => raise OSError
  end.

(** [e.output] *)
Definition getattr_output (e : pyval) : M pyval :=
  match e with
  | PyCPE _ o => ret o
  | _ => raise AttributeError
  end.

(* ------------------------------------------------------------------ *)
(** ** export.py, [SDExport.exit_gracefully] *)

(** Logging calls with constant text are left out of the model; the ones
    that print a value the claims are about are kept as [Log] events. *)
Definition exit_gracefully (msg : pyval) (e : pyval) : M unit :=
  write_stderr msg ;;
  write_stderr (PyStr nl) ;;
  log ("Exiting with message: " ++ py_str msg) ;;
  (if truthy e then
     e_output <-
       try_except
         (d <- gets tmpdir ;;
          isd <- os_path_isdir d ;;
          (if isd then shutil_rmtree d else ret tt) ;;
          o <- getattr_output e ;;
          log (py_str o) ;;
          ret o)
         is_Exception
         (fun _ => ret (PyStr "<unknown exception>")) ;;
     write_stderr e_output ;;
     write_stderr (PyStr nl)
   else ret tt) ;;
  sys_exit 0.

(** The default argument [e=False]. *)
Definition exit_gracefully_msg (msg : pyval) : M unit :=
  exit_gracefully msg (PyBool false).

Definition is_OSError (e : exn) : bool :=
  match e with OSError => true | _ => false end.

(** A [None] placed in an argv list makes [subprocess] raise [TypeError]. *)
Definition get_device : M string :=
  d <- gets device ;;
  match d with
  | Some s => ret s
  | None => raise TypeError
  end.

(** [Popen(argv, stdin=PIPE, ...)] followed by
    [communicate(input=str.encode(key, "utf-8"))]: the process is started
    first; a key that is not a [str] makes [str.encode] raise afterwards. *)
Definition popen_with_key (argv : list string) (key : pyval) : M Z :=
  match key with
  | PyStr k => popen_communicate argv k
  | _ => r <- spawn argv Piped ;;
         match r with
         | NotFound => raise OSError
         | Ran _ _ => raise TypeError
         end
  end.

(** [Python]'s treatment of the outcome of the top-level call: normal
    return exits 0, [SystemExit(c)] exits [c], any other exception prints a
    traceback on stderr and exits 1. *)
Definition traceback : string := "Traceback (most recent call last)".

Definition run_process (m : M unit) (env : Env) (st : St) : Z * list event :=
  match m env st with
  | (Ok _, st1) => (0%Z, trace st1)
  | (Exc (SystemExit c), st1) => (c, trace st1)
  | (Exc _, st1) => (1%Z, app (trace st1) [Stderr traceback])
  end.

(* ------------------------------------------------------------------ *)
(** ** utils.py *)

(** [safe_check_call(self, command, error_message)]; the first parameter is
    the object whose [exit_gracefully] is called. *)
Definition safe_check_call (command : list string) (error_message : pyval)
  : M unit :=
  try_except (check_call command) is_CPE
    (fun ex => match ex with
               | CalledProcessError _ out => exit_gracefully error_message out
               | _ => ret tt
               end).

Definition notify_send (msg : string) : list string :=
  ["notify-send"; "--expire-time"; "3000"; "--icon";
   "/usr/share/securedrop/icons/sd-logo.png"; "SecureDrop: " ++ msg].

(** A call [safe_check_call(command=..., error_message=...)], as usb/actions.py
    and [popup_message] make it: the module function's first parameter
    [self] is not passed, so Python raises [TypeError] (missing required
    positional argument) before the body runs. Evaluating the arguments has
    no effect, so no subprocess is started. *)
Definition safe_check_call_no_self (command : list string) (error_message : pyval)
  : M unit :=
  raise TypeError.

(** [popup_message(self, msg)] *)
Definition popup_message (msg : string) : M unit :=
  safe_check_call_no_self (notify_send msg) (PyStr "Error sending notification:").

(* ------------------------------------------------------------------ *)
(** ** export.py, the [SDExport] methods used by main.py *)

Module SDExport.

Definition DEVICE := "/dev/sda1".
Definition MOUNTPOINT := "/media/usb".
Definition ENCRYPTED_DEVICE := "encrypted_volume".

(** [SDExport.popup_message]: passes the exception object itself as [e]. *)
Definition popup_message (msg : string) : M unit :=
  try_except (check_call (notify_send msg)) is_CPE
    (fun ex => match ex with
               | CalledProcessError rc out =>
                   exit_gracefully (PyStr "Error sending notification:")
                                   (PyCPE rc out)
               | _ => ret tt
               end).

Definition extract_tarball : M unit :=
  ok <- asks (fun env t => tar_extract_ok env t) ;;
  if ok then ret tt else exit_gracefully_msg (PyStr "ERROR_EXTRACTION").

Definition check_luks_volume : M unit :=
  try_except
    (check_call ["sudo"; "cryptsetup"; "isLuks"; DEVICE] ;;
     exit_gracefully_msg (PyStr "USB_ENCRYPTED"))
    is_CPE
    (fun _ => exit_gracefully_msg (PyStr "USB_NO_SUPPORTED_ENCRYPTION")).

Definition unlock_luks_volume (encryption_key : pyval) : M unit :=
  ed <- gets encrypted_device ;;
  ex <- os_path_exists (PyStr.path_join "/dev/mapper/" ed) ;;
  if negb ex then
    dev <- get_device ;;
    rc <- popen_with_key ["sudo"; "cryptsetup"; "luksOpen"; dev; ed]
                         encryption_key ;;
    if negb (Z.eqb rc 0) then exit_gracefully_msg (PyStr "USB_BAD_PASSPHRASE")
    else ret tt
  else ret tt.

Definition mount_volume : M unit :=
  mp <- gets mountpoint ;;
  ex <- os_path_exists mp ;;
  (if negb ex then check_call ["sudo"; "mkdir"; mp] else ret tt) ;;
  try_except
    (ed <- gets encrypted_device ;;
     check_call ["sudo"; "mount"; PyStr.path_join "/dev/mapper/" ed; mp] ;;
     check_call ["sudo"; "chown"; "-R"; "user:user"; mp])
    is_CPE
    (fun _ =>
       ed <- gets encrypted_device ;;
       check_call ["sudo"; "cryptsetup"; "luksClose"; ed] ;;
       exit_gracefully_msg (PyStr "ERROR_USB_MOUNT")).

(** The [finally] block of [copy_submission]. *)
Definition copy_teardown : M unit :=
  check_call ["sync"] ;;
  mp <- gets mountpoint ;;
  check_call ["sudo"; "umount"; mp] ;;
  ed <- gets encrypted_device ;;
  check_call ["sudo"; "cryptsetup"; "luksClose"; ed] ;;
  tmp <- gets tmpdir ;;
  check_call ["rm"; "-rf"; tmp] ;;
  sys_exit 0.

(** The [try] block of [copy_submission] with its [except] clause. *)
Definition copy_try : M unit :=
  try_except
    (mp <- gets mountpoint ;;
     td <- gets target_dirname ;;
     let target_path := PyStr.path_join mp td in
     check_call ["mkdir"; target_path] ;;
     tmp <- gets tmpdir ;;
     let export_data := PyStr.path_join tmp "export_data/" in
     check_call ["cp"; "-r"; export_data; target_path])
    (fun e => is_CPE e || is_OSError e)
    (fun _ => exit_gracefully_msg (PyStr "ERROR_USB_WRITE")).

Definition copy_submission : M unit :=
  try_finally copy_try copy_teardown.

End SDExport.

(* ------------------------------------------------------------------ *)
(** ** export.py, printing methods of [SDExport] *)

Module SDPrint.

Definition PRINTER_NAME := "sdw-printer".

Fixpoint digits_of (fuel n : nat) (acc : string) : string :=
  match fuel with
  | O => acc
  | S f =>
      let d := Nat.modulo n 10 in
      let acc' := String (ascii_of_nat (48 + d)) acc in
      if Nat.ltb n 10 then acc' else digits_of f (Nat.div n 10) acc'
  end.

(** [str(n)] for a natural number *)
Definition nat_str (n : nat) : string := digits_of (S n) n "".

Fixpoint last_slash_split (s : string) (dir base : string) : string * string :=
  match s with
  | EmptyString => (dir, base)
  | String c rest =>
      if Ascii.eqb c "/" then last_slash_split rest (dir ++ base ++ "/") ""
      else last_slash_split rest dir (base ++ String c EmptyString)
  end.

(** [posixpath.basename]: [p[p.rfind('/') + 1:]] *)
Definition basename (s : string) : string := snd (last_slash_split s "" "").

Fixpoint all_slash (s : string) : bool :=
  match s with
  | EmptyString => true
  | String c rest => Ascii.eqb c "/" && all_slash rest
  end.

(** [s.rstrip('/')] *)
Definition rstrip_slash (s : string) : string :=
  let fix drop (r : string) : string :=
      match r with
      | String c rest => if Ascii.eqb c "/" then drop rest else r
      | EmptyString => EmptyString
      end in
  PyStr.rev_str (drop (PyStr.rev_str s "")) "".

(** [posixpath.dirname]: [head = p[:p.rfind('/') + 1]]; [if head and head
    != '/' * len(head): head = head.rstrip('/')]. *)
Definition dirname (s : string) : string :=
  let head := fst (last_slash_split s "" "") in
  if all_slash head then head else rstrip_slash head.

Definition endswith (s suffix : string) : bool :=
  let n := String.length s in
  let k := String.length suffix in
  Nat.leb k n && String.eqb (substring (n - k) k s) suffix.

Definition OPEN_OFFICE_FORMATS : list string :=
  [".doc"; ".docx"; ".xls"; ".xlsx"; ".ppt"; ".pptx"; ".odt"; ".ods"; ".odp"].

Definition is_open_office_file (filename : string) : bool :=
  existsb (endswith (basename filename)) OPEN_OFFICE_FORMATS.

(** [print_file]: the log line ['Sending file to printer {}:{}'.format(
    self.printer_name)] has two placeholders and one argument, so [format]
    raises [IndexError] there, before [xpp] is run; [except
    CalledProcessError] does not catch it. *)
Definition print_file (file_to_print : string) : M unit :=
  try_except
    ((if is_open_office_file file_to_print then
        let folder := dirname file_to_print in
        let converted_filename := file_to_print ++ ".pdf" in
        let converted_path := PyStr.path_join folder converted_filename in
        check_call ["unoconv"; "-o"; converted_path; file_to_print]
      else ret tt) ;;
     raise IndexError)
    is_CPE
    (fun _ => exit_gracefully_msg (PyStr "ERROR_PRINT")).

Fixpoint print_loop (files_path : string) (total : nat) (fs : list string)
  (print_count : nat) : M unit :=
  match fs with
  | [] => ret tt
  | f :: rest =>
      print_file (PyStr.path_join files_path f) ;;
      let msg := "Printing document " ++ nat_str (S print_count) ++ " of "
                 ++ nat_str total in
      SDExport.popup_message msg ;;
      print_loop files_path total rest (S print_count)
  end.

(** [print_all_files]: the [for] loop is [print_loop]. *)
Definition print_all_files : M unit :=
  tmp <- gets tmpdir ;;
  let files_path := PyStr.path_join tmp "export_data/" in
  files <- os_listdir files_path ;;
  print_loop files_path (length files) files O.

Definition print_test_page : M unit :=
  print_file "/usr/share/cups/data/testprint" ;;
  SDExport.popup_message "Printing test page".

End SDPrint.

(* ------------------------------------------------------------------ *)
(** ** main.py, [__main__] *)

Module Main.

Definition SUPPORTED_EXPORT_METHODS : list string :=
  ["usb-test"; "disk"; "disk-test"; "printer"; "printer-test"].
Definition SUPPORTED_ENCRYPTION_METHODS : list string := ["luks"].

(** [v in lst] for a list of strings, and [v == s] *)
Definition py_in (v : pyval) (l : list string) : bool :=
  match v with PyStr s => existsb (String.eqb s) l | _ => false end.
Definition py_eq (v : pyval) (s : string) : bool :=
  match v with PyStr s' => String.eqb s' s | _ => false end.

(** export.py, [Metadata.is_valid] *)
Definition is_valid (m : Metadata) : bool :=
  if negb (py_in (export_method m) SUPPORTED_EXPORT_METHODS) then false
  else if py_eq (export_method m) "disk" then
    py_in (encryption_method m) SUPPORTED_ENCRYPTION_METHODS
  else true.

(** The methods [__main__] calls on its [submission] argument. *)
Record Submission := mkSubmission {
  extract_tarball : M unit;
  exit_gracefully : pyval -> M unit;
  check_luks_volume : M unit;
  unlock_luks_volume : pyval -> M unit;
  mount_volume : M unit;
  copy_submission : M unit;
  check_printer_connected : M unit;
  setup_printer : M unit;
  print_all_files : M unit;
  print_test_page : M unit
}.

(** [__main__] reaching the call [submission.<meth>(...)] *)
Definition invoke {A} (meth : string) (m : M A) : M A :=
  emit (Call meth) ;; m.

(** [export.Metadata(submission.tmpdir)]: the parse result comes from the
    environment; [None] stands for an exception raised while parsing. *)
Definition read_metadata_file : M unit :=
  md <- asks (fun env t => read_metadata env t) ;;
  match md with
  | Some m => modify (set_archive_metadata (Some m))
  | None => raise ValueError
  end.

Definition __main__ (S : Submission) : M unit :=
  invoke "extract_tarball" (extract_tarball S) ;;
  try_except read_metadata_file is_Exception
    (fun _ => invoke "exit_gracefully"
                (exit_gracefully S (value "ERROR_METADATA_PARSING"))) ;;
  md <- gets archive_metadata ;;
  match md with
  | None => raise AttributeError
  | Some m =>
      if is_valid m then
        if py_eq (export_method m) "disk-check" then
          invoke "check_luks_volume" (check_luks_volume S)
        else if py_eq (export_method m) "disk" then
          invoke "unlock_luks_volume" (unlock_luks_volume S (encryption_key m)) ;;
          invoke "mount_volume" (mount_volume S) ;;
          invoke "copy_submission" (copy_submission S)
        else if py_eq (export_method m) "printer-check" then
          invoke "check_printer_connected" (check_printer_connected S)
        else if py_eq (export_method m) "printer" then
          invoke "setup_printer" (setup_printer S) ;;
          invoke "print_all_files" (print_all_files S)
        else if py_eq (export_method m) "printer-test" then
          invoke "setup_printer" (setup_printer S) ;;
          invoke "print_test_page" (print_test_page S)
        else ret tt
      else invoke "exit_gracefully"
             (exit_gracefully S (value "ERROR_ARCHIVE_METADATA"))
  end.

(** An [SDExport] object as the submission: it has no
    [check_printer_connected] attribute, and its [setup_printer] takes two
    arguments that [__main__] does not pass. *)
Definition sdexport : Submission :=
  mkSubmission SDExport.extract_tarball exit_gracefully_msg
    SDExport.check_luks_volume SDExport.unlock_luks_volume
    SDExport.mount_volume SDExport.copy_submission
    (raise AttributeError) (raise TypeError)
    SDPrint.print_all_files SDPrint.print_test_page.

Definition init_st (tmp target : string) : St :=
  mkSt [] (Some SDExport.DEVICE) SDExport.MOUNTPOINT SDExport.ENCRYPTED_DEVICE
       tmp target None [].

End Main.

(* ------------------------------------------------------------------ *)
(** ** usb/actions.py, [USBActionMixin] and [USBExportAction]

    The base class [ExportAction] is not defined in this version of
    export.py; its [exit_gracefully] is taken to be [SDExport]'s and its
    [popup_message] to be the one of utils.py. Every [safe_check_call] in
    this file passes keyword arguments only, with no [self]. *)

Module USB.

Definition MOUNTPOINT := "/media/usb".
Definition ENCRYPTED_DEVICE := "encrypted_volume".

(** Reading [self.mountpoint] or [self.encrypted_device]: an attribute the
    object was never given raises [AttributeError]. ([self.device] is always
    assigned by [check_usb_connected] before a run method reads it.) *)
Definition self_attr {A} (name : string) (f : St -> A) : M A :=
  u <- gets unset ;;
  if existsb (String.eqb name) u then raise AttributeError else gets f.

(** [x.decode('utf8').split()[0]] *)
Definition first_word (x : string) : M string :=
  match PyStr.str_split x with
  | w :: _ => ret w
  | [] => raise IndexError
  end.

Fixpoint mapM {A B} (f : A -> M B) (l : list A) : M (list B) :=
  match l with
  | [] => ret []
  | x :: xs => y <- f x ;; ys <- mapM f xs ;; ret (y :: ys)
  end.

(** [lsblk -o NAME,TYPE | grep disk], read with [readlines()]. [Popen]
    never raises [CalledProcessError], whatever the exit codes. *)
Definition list_disks : M (list string) :=
  r1 <- spawn ["lsblk"; "-o"; "NAME,TYPE"] NoStdin ;;
  match r1 with
  | NotFound => raise OSError
  | Ran _ _ =>
      r2 <- spawn ["grep"; "disk"] FromPipe ;;
      match r2 with
      | NotFound => raise OSError
      | Ran _ out => mapM first_word (PyStr.readlines out)
      end
  end.

(** The body of the removable-attribute loop for one device: [int()] of the
    stripped content of [/sys/class/block/<dev>/removable]; a failing [cat]
    gives [False]; a [ValueError] is not caught. *)
Definition is_removable (dev : string) : M bool :=
  try_except
    (removable <- check_output
                    ["cat"; "/sys/class/block/" ++ dev ++ "/removable"] ;;
     match PyStr.py_int (PyStr.strip removable) with
     | Some z => ret (negb (Z.eqb z 0))
     | None => raise ValueError
     end)
    is_CPE
    (fun _ => ret false).

Fixpoint select_removable (devs : list string) : M (list string) :=
  match devs with
  | [] => ret []
  | d :: ds =>
      b <- is_removable d ;;
      rest <- select_removable ds ;;
      ret (if b then ("/dev/" ++ d) :: rest else rest)
  end.

Definition _get_connected_usbs : M (list string) :=
  attached_devices <-
    try_except list_disks is_CPE
      (fun _ => exit_gracefully_msg (value "ERROR_GENERIC") ;; ret []) ;;
  select_removable attached_devices.

Definition set_extracted_device_name : M unit :=
  try_except
    (dev <- get_device ;;
     device_and_partitions <-
       check_output ["lsblk"; "-o"; "TYPE"; "--noheadings"; dev] ;;
     let partition_count :=
       PyStr.count "part" (PyStr.split_char "010"%char device_and_partitions) in
     (if Nat.ltb 1 partition_count
      then exit_gracefully_msg (value "USB_ENCRYPTION_NOT_SUPPORTED")
      else ret tt) ;;
     modify (set_device
               (Some (if Nat.eqb partition_count 0 then dev else dev ++ "1"))))
    is_CPE
    (fun _ => exit_gracefully_msg (value "USB_ENCRYPTION_NOT_SUPPORTED")).

(** The argv holds [self.device] as it is (a [None] is shown as "None"
    here; the argv is never used): the call raises [TypeError] before any
    process is started. *)
Definition check_luks_volume : M unit :=
  set_extracted_device_name ;;
  d <- gets device ;;
  let dev := match d with Some x => x | None => "None" end in
  safe_check_call_no_self ["sudo"; "cryptsetup"; "isLuks"; dev]
                          (value "USB_ENCRYPTION_NOT_SUPPORTED") ;;
  exit_gracefully_msg (value "USB_ENCRYPTED").

(** The loop over the [luksDump] header lines: the last line whose first
    tab-separated field contains [UUID] names the mapping. *)
Fixpoint scan_luks_header (lines : list string) : M unit :=
  match lines with
  | [] => ret tt
  | line :: rest =>
      let items := PyStr.split_char "009"%char line in
      (if PyStr.contains "UUID" (hd "" items) then
         match items with
         | _ :: uuid :: _ => modify (set_encrypted_device ("luks-" ++ uuid))
         | _ => raise IndexError
         end
       else ret tt) ;;
      scan_luks_header rest
  end.

Definition unlock_luks_volume (encryption_key : pyval) : M unit :=
  try_except
    (set_extracted_device_name ;;
     dev <- get_device ;;
     luks_header <- check_output ["sudo"; "cryptsetup"; "luksDump"; dev] ;;
     scan_luks_header (PyStr.split_char "010"%char luks_header) ;;
     ed <- self_attr "encrypted_device" encrypted_device ;;
     ex <- os_path_exists (PyStr.path_join "/dev/mapper/" ed) ;;
     if negb ex then
       dev' <- get_device ;;
       rc <- popen_with_key ["sudo"; "cryptsetup"; "luksOpen"; dev'; ed]
                            encryption_key ;;
       if negb (Z.eqb rc 0)
       then exit_gracefully_msg (value "USB_BAD_PASSPHRASE")
       else ret tt
     else ret tt)
    is_CPE
    (* the enum member itself, not its [.value] *)
    (fun _ => exit_gracefully_msg (ExportStatus "USB_ENCRYPTION_NOT_SUPPORTED")).

Definition mount_volume : M unit :=
  mp <- self_attr "mountpoint" mountpoint ;;
  ex <- os_path_exists mp ;;
  (if negb ex
   then safe_check_call_no_self ["sudo"; "mkdir"; mp]
                                (ExportStatus "ERROR_USB_MOUNT")
   else ret tt) ;;
  ed <- self_attr "encrypted_device" encrypted_device ;;
  let mapped_device_path := PyStr.path_join "/dev/mapper/" ed in
  safe_check_call_no_self ["sudo"; "mount"; mapped_device_path; mp]
                          (value "ERROR_USB_MOUNT") ;;
  safe_check_call_no_self ["sudo"; "chown"; "-R"; "user:user"; mp]
                          (value "ERROR_USB_MOUNT").

Definition check_usb_connected (exit : bool) : M unit :=
  usb_devices <- _get_connected_usbs ;;
  match usb_devices with
  | [] => exit_gracefully_msg (value "USB_NOT_CONNECTED")
  | [d] =>
      modify (set_device (Some d)) ;;
      if exit then exit_gracefully_msg (value "USB_CONNECTED") else ret tt
  | _ => exit_gracefully_msg (value "ERROR_GENERIC")
  end.

(** The [finally] block of [copy_submission]. *)
Definition copy_teardown (tmpdir : string) : M unit :=
  check_call ["sync"] ;;
  mp <- self_attr "mountpoint" mountpoint ;;
  check_call ["sudo"; "umount"; mp] ;;
  ed <- self_attr "encrypted_device" encrypted_device ;;
  check_call ["sudo"; "cryptsetup"; "luksClose"; ed] ;;
  check_call ["rm"; "-rf"; tmpdir] ;;
  sys_exit 0.

(** The [try] block of [copy_submission] with its [except] clause. *)
Definition copy_try (tmpdir target_dirname : string) : M unit :=
  try_except
    (mp <- self_attr "mountpoint" mountpoint ;;
     let target_path := PyStr.path_join mp target_dirname in
     check_call ["mkdir"; target_path] ;;
     let export_data := PyStr.path_join tmpdir "export_data/" in
     check_call ["cp"; "-r"; export_data; target_path] ;;
     popup_message "Files exported successfully to disk.")
    (fun e => is_CPE e || is_OSError e)
    (fun _ => exit_gracefully_msg (value "ERROR_USB_WRITE")).

Definition copy_submission (tmpdir target_dirname : string) : M unit :=
  try_finally (copy_try tmpdir target_dirname) (copy_teardown tmpdir).

(** [USBExportAction.run]: [key], [sub_tmpdir] and [sub_target] are
    [submission.archive_metadata.encryption_key], [submission.tmpdir] and
    [submission.target_dirname]. *)
Definition export_run (key : pyval) (sub_tmpdir sub_target : string)
  : M unit :=
  check_usb_connected false ;;
  unlock_luks_volume key ;;
  mount_volume ;;
  copy_submission sub_tmpdir sub_target.

(** A fresh [USBExportAction] or [USBDiskTestAction]: its [__init__] sets
    only [self.submission] and does not call [USBActionMixin.__init__], so
    [mountpoint] and [encrypted_device] are unset (their fields hold
    placeholders); [device] starts as [None] and is never read before
    [check_usb_connected] assigns it. The [tmpdir] and [target_dirname]
    fields are not read by these methods: [export_run] takes the
    submission's values as arguments. *)
Definition init_st (tmp : string) : St :=
  mkSt [] None "" "" tmp "sd-export-20200101-000000" None
       ["mountpoint"; "encrypted_device"].

End USB.

(* ------------------------------------------------------------------ *)
(** ** Concrete environments: a machine answering from a table *)

Module Fixture.

Fixpoint argv_eqb (a b : list string) : bool :=
  match a, b with
  | [], [] => true
  | x :: xs, y :: ys => String.eqb x y && argv_eqb xs ys
  | _, _ => false
  end.

(** Commands not in the table fail with exit status 1. *)
Fixpoint lookup_cmd (tbl : list (list string * cmd_result)) (argv : list string)
  : cmd_result :=
  match tbl with
  | [] => Ran 1 ""
  | (a, r) :: rest => if argv_eqb a argv then r else lookup_cmd rest argv
  end.

(** [/dev/mapper/<n>] exists once a [luksOpen ... <n>] has succeeded. *)
Definition mapper_opened (t : list event) (p : string) : bool :=
  existsb (fun ev =>
             match ev with
             | Spawn ["sudo"; "cryptsetup"; "luksOpen"; _; n] _ _ (Ran 0 _) =>
                 String.eqb p ("/dev/mapper/" ++ n)
             | _ => false
             end) t.

Definition disk_metadata : Metadata :=
  mkMetadata (PyStr "disk") (PyStr "luks") (PyStr "hunter2").

Definition table_env (tbl : list (list string * cmd_result))
                     (paths : list string) : Env :=
  mkEnv (fun _ argv _ => lookup_cmd tbl argv)
        (fun t p => existsb (String.eqb p) paths || mapper_opened t p)
        (fun _ _ => true)
        (fun _ _ => true)
        (fun _ => true)
        (fun _ => Some disk_metadata)
        (fun _ _ => Some []).

Definition ok (out : string) : cmd_result := Ran 0 out.
Definition fail : cmd_result := Ran 1 "".

Definition LF := nl.

(** One removable disk [sda] with one partition [sda1]. *)
Definition listing : list (list string * cmd_result) :=
  [ (["lsblk"; "-o"; "NAME,TYPE"],
       ok ("NAME TYPE" ++ LF ++ "sda disk" ++ LF ++ "sda1 part" ++ LF));
    (["grep"; "disk"], ok ("sda disk" ++ LF));
    (["cat"; "/sys/class/block/sda/removable"], ok ("1" ++ LF));
    (["lsblk"; "-o"; "TYPE"; "--noheadings"; "/dev/sda"],
       ok ("disk" ++ LF ++ "part" ++ LF));
    (["lsblk"; "-o"; "TYPE"; "--noheadings"; "/dev/sda1"], ok ("part" ++ LF)) ].

(** ... and [sda1] is a LUKS container. *)
Definition discovery : list (list string * cmd_result) :=
  (listing ++
   [ (["sudo"; "cryptsetup"; "luksDump"; "/dev/sda1"],
        ok ("LUKS header information" ++ LF ++
            "UUID:" ++ String "009"%char EmptyString ++ "abc-123" ++ LF)) ])%list.

Definition mapped := "luks-abc-123".
Definition TMP := "/tmp/tmpx".
Definition TARGET := "sd-export-20200101-000000".

Definition copy_cmds : list (list string * cmd_result) :=
  [ (["mkdir"; "/media/usb/" ++ TARGET], ok "");
    (["cp"; "-r"; TMP ++ "/export_data/"; "/media/usb/" ++ TARGET], ok "");
    (notify_send "Files exported successfully to disk.", ok "") ].

Definition teardown_cmds (mp ed tmp : string) : list (list string) :=
  [ ["sync"]; ["sudo"; "umount"; mp]; ["sudo"; "cryptsetup"; "luksClose"; ed];
    ["rm"; "-rf"; tmp] ].

Definition all_ok (cs : list (list string)) : list (list string * cmd_result) :=
  map (fun c => (c, ok "")) cs.

Definition mount_cmds : list (list string * cmd_result) :=
  [ (["sudo"; "cryptsetup"; "luksOpen"; "/dev/sda1"; mapped], ok "");
    (["sudo"; "mount"; "/dev/mapper/" ++ mapped; "/media/usb"], ok "");
    (["sudo"; "chown"; "-R"; "user:user"; "/media/usb"], ok "") ].

(** Everything succeeds. *)
Definition happy : Env :=
  table_env (discovery ++ mount_cmds ++ copy_cmds ++
             all_ok (teardown_cmds "/media/usb" mapped TMP))%list
            ["/media/usb"].

(** Every command fails; the mount point exists. *)
Definition nothing_works : Env := table_env [] ["/media/usb"].

(** No disk is attached. *)
Definition no_disk : Env :=
  table_env [ (["lsblk"; "-o"; "NAME,TYPE"], ok ("NAME TYPE" ++ LF));
              (["grep"; "disk"], ok "") ] [].

(** [/dev/sda] carries two partitions. *)
Definition two_partitions : Env :=
  table_env [ (["lsblk"; "-o"; "TYPE"; "--noheadings"; "/dev/sda"],
                 ok ("disk" ++ LF ++ "part" ++ LF ++ "part" ++ LF)) ] [].

(** The partition is not a LUKS container: [luksDump] fails. *)
Definition not_luks : Env := table_env listing ["/media/usb"].

(** The same disk as [SDExport] addresses it: the fixed device [/dev/sda1]
    and the mapping name [encrypted_volume]. *)
Definition sd_open : list (list string * cmd_result) :=
  [ (["sudo"; "cryptsetup"; "luksOpen"; "/dev/sda1"; "encrypted_volume"], ok "") ].

Definition sd_mount_cmds : list (list string * cmd_result) :=
  [ (["sudo"; "mount"; "/dev/mapper/encrypted_volume"; "/media/usb"], ok "");
    (["sudo"; "chown"; "-R"; "user:user"; "/media/usb"], ok "") ].

(** [SDExport]: the volume is unlocked and mounted; [mkdir] on it fails,
    [sync] succeeds and [umount] fails. *)
Definition sd_write_and_umount_fail : Env :=
  table_env (sd_open ++ sd_mount_cmds ++ [ (["sync"], ok "") ])%list ["/media/usb"].

(** [SDExport]: the volume is unlocked and mounted; [mkdir] on it fails,
    and so does [sync]. *)
Definition sd_write_and_sync_fail : Env :=
  table_env (sd_open ++ sd_mount_cmds)%list ["/media/usb"].

(** [SDExport]: the volume is unlocked, the mount point does not exist and
    [mkdir] fails. *)
Definition sd_no_mountpoint : Env := table_env sd_open [].

End Fixture.

(* ------------------------------------------------------------------ *)
(** ** exceptions.py, the members of [ExportStatus] *)

Module Status.

Definition MEMBERS : list string :=
  [ "ERROR_FILE_NOT_FOUND"; "ERROR_EXTRACTION"; "ERROR_METADATA_PARSING";
    "ERROR_ARCHIVE_METADATA"; "ERROR_USB_CONFIGURATION"; "ERROR_GENERIC";
    "USB_CONNECTED"; "USB_NOT_CONNECTED"; "ERROR_USB_CHECK";
    "USB_ENCRYPTED"; "USB_ENCRYPTED_UNLOCKED"; "USB_ENCRYPTION_NOT_SUPPORTED";
    "USB_DISK_ERROR";
    "ERROR_MULTIPLE_PRINTERS_FOUND"; "ERROR_PRINTER_NOT_FOUND";
    "ERROR_PRINTER_NOT_SUPPORTED"; "ERROR_PRINTER_DRIVER_UNAVAILABLE";
    "ERROR_PRINTER_INSTALL";
    "USB_BAD_PASSPHRASE"; "ERROR_USB_MOUNT"; "ERROR_USB_WRITE";
    "ERROR_PRINT" ].

End Status.

(* ------------------------------------------------------------------ *)
(** ** export.py, [SDExport.check_usb_connected] *)

Module SDPreflight.

(** [s.rstrip()] on a [str] *)
Definition rstrip (s : string) : string :=
  PyStr.rev_str (PyStr.lstrip (PyStr.rev_str s "")) "".

(** [pci_bus_id] is the attribute read from the VM configuration. The
    value after [exit_gracefully] in the [except] clause is never used:
    [exit_gracefully] does not return. *)
Definition check_usb_connected (pci_bus_id : string) : M unit :=
  p <- try_except (check_output ["lsusb"; "-s"; pci_bus_id ++ ":"]) is_CPE
         (fun _ => exit_gracefully_msg (PyStr "ERROR_USB_CONFIGURATION") ;;
                   ret "") ;;
  let n_usb := length (PyStr.split_char "010"%char (rstrip p)) in
  if Nat.eqb n_usb 1 then exit_gracefully_msg (PyStr "USB_NOT_CONNECTED")
  else if Nat.eqb n_usb 2 then exit_gracefully_msg (PyStr "USB_CONNECTED")
  else exit_gracefully_msg (PyStr "ERROR_USB_CHECK").

End SDPreflight.

(* ------------------------------------------------------------------ *)
(** ** export.py, the printer set-up methods of [SDExport] *)

Module SDPrinterSetup.

Definition BRLASER_DRIVER := "/usr/share/cups/drv/brlaser.drv".
Definition BRLASER_PPD := "/usr/share/cups/model/br7030.ppd".

(** The loop over [output.split()]: every word containing [usb://]
    overwrites [printer_uri]. *)
Fixpoint find_usb_uri (printer_uri : string) (lines : list string) : string :=
  match lines with
  | [] => printer_uri
  | line :: rest =>
      find_usb_uri (if PyStr.contains "usb://" line then line else printer_uri)
                   rest
  end.

(** [get_printer_uri]: the values after the calls to [exit_gracefully]
    are never used, since [exit_gracefully] does not return (the source
    would fail on the unbound [output], or return [None]). *)
Definition get_printer_uri : M string :=
  output <- try_except (check_output ["sudo"; "lpinfo"; "-v"]) is_CPE
              (fun _ => exit_gracefully_msg (PyStr "ERROR_PRINTER_URI") ;;
                        ret "") ;;
  let printer_uri := find_usb_uri "" (PyStr.split_ws output) in
  if String.eqb printer_uri "" then
    exit_gracefully_msg (PyStr "ERROR_PRINTER_NOT_FOUND") ;; ret ""
  else if PyStr.contains "Brother" printer_uri then ret printer_uri
  else exit_gracefully_msg (PyStr "ERROR_PRINTER_NOT_SUPPORTED") ;; ret "".

(** [install_printer_ppd(uri)]: [None] is the implicit return. *)
Definition install_printer_ppd (uri : string) : M (option string) :=
  if PyStr.contains "Brother" uri then
    try_except
      (check_call ["sudo"; "ppdc"; BRLASER_DRIVER; "-d"; "/usr/share/cups/model/"])
      is_CPE
      (fun _ => exit_gracefully_msg (PyStr "ERROR_PRINTER_DRIVER_UNAVAILBLE")) ;;
    ret (Some BRLASER_PPD)
  else ret None.

(** [setup_printer(printer_uri, printer_ppd)]: a [None] in an argv makes
    [subprocess] raise [TypeError] before anything is spawned. *)
Definition setup_printer (printer_uri : string) (printer_ppd : option string)
  : M unit :=
  try_except
    (match printer_ppd with
     | Some ppd =>
         check_call ["sudo"; "lpadmin"; "-p"; SDPrint.PRINTER_NAME; "-v";
                     printer_uri; "-P"; ppd]
     | None => raise TypeError
     end ;;
     check_call ["sudo"; "lpadmin"; "-p"; SDPrint.PRINTER_NAME; "-E"] ;;
     check_call ["sudo"; "lpadmin"; "-p"; SDPrint.PRINTER_NAME; "-u"; "allow:user"])
    is_CPE
    (fun _ => exit_gracefully_msg (PyStr "ERROR_PRINTER_INSTALL")).

End SDPrinterSetup.

(* ------------------------------------------------------------------ *)
(** ** usb/actions.py, [USBDiskTestAction] and [USBTestAction] *)

Module USBDiskTestAction.

(** [run]: the inherited [USBActionMixin.check_luks_volume] is [USB.check_luks_volume]. *)
Definition run : M unit :=
  USB.check_usb_connected false ;;
  USB.check_luks_volume.

End USBDiskTestAction.

Module USBTestAction.

Definition run : M unit := USB.check_usb_connected true.

End USBTestAction.

(* ------------------------------------------------------------------ *)
(** * Reasoning about traces *)

(** [m] only appends events satisfying [P] to the trace. *)
Definition extends (P : event -> Prop) (t t' : list event) : Prop :=
  exists d, t' = app t d /\ Forall P d.

Definition preserves {A} (P : event -> Prop) (m : M A) : Prop :=
  forall env st, extends P (trace st) (trace (snd (m env st))).

(** Events that are not spawns of a command are harmless for most
    properties; [spawn_ok Q] lets through the spawns whose argv passes [Q]. *)
Definition spawn_ok (Q : list string -> Prop) (ev : event) : Prop :=
  match ev with
  | Spawn argv _ _ _ => Q argv
  | Call _ => False
  | _ => True
  end.

(** The spawn is not a [cryptsetup isLuks] probe. *)
Definition not_isLuks (argv : list string) : Prop :=
  firstn 3 argv <> ["sudo"; "cryptsetup"; "isLuks"].

(** The names of the methods [__main__] reached, in order. *)
Fixpoint calls (d : list event) : list string :=
  match d with
  | [] => []
  | Call n :: rest => n :: calls rest
  | _ :: rest => calls rest
  end.

(** Spawns pass [Q]; [Call] events are allowed. *)
Definition spawn_or_call (Q : list string -> Prop) (ev : event) : Prop :=
  match ev with Call _ => True | _ => spawn_ok Q ev end.

(** The trace with the bytes written to children's stdin removed. *)
Definition erase_ev (ev : event) : event :=
  match ev with
  | Spawn a e (Input _) r => Spawn a e (Input "") r
  | _ => ev
  end.

Definition erase (t : list event) : list event := map erase_ev t.

(** The argv and environment of every spawned command, in order. *)
Definition argv_env (t : list event)
  : list (list string * option (list (string * string))) :=
  flat_map (fun ev => match ev with
                      | Spawn a e _ _ => [(a, e)]
                      | _ => []
                      end) t.

(** An operating system whose answers do not depend on the bytes a child
    read from its stdin: both runs get the same answers as long as they
    agree on everything else. *)
Definition env_low (env : Env) : Prop :=
  forall t1 t2, erase t1 = erase t2 ->
    (forall a s1 s2, run_cmd env t1 a s1 = run_cmd env t2 a s2) /\
    (forall p, fs_exists env t1 p = fs_exists env t2 p) /\
    (forall p, fs_isdir env t1 p = fs_isdir env t2 p) /\
    (forall p, fs_rmtree_ok env t1 p = fs_rmtree_ok env t2 p) /\
    tar_extract_ok env t1 = tar_extract_ok env t2 /\
    read_metadata env t1 = read_metadata env t2 /\
    (forall p, fs_listdir env t1 p = fs_listdir env t2 p).

Definition st_rel (s1 s2 : St) : Prop :=
  erase (trace s1) = erase (trace s2) /\ set_trace [] s1 = set_trace [] s2.

(** [m1] and [m2] compute the same result and related states. *)
Definition rel {A} (m1 m2 : M A) : Prop :=
  forall env s1 s2, env_low env -> st_rel s1 s2 ->
    fst (m1 env s1) = fst (m2 env s2) /\
    st_rel (snd (m1 env s1)) (snd (m2 env s2)).

Definition erase_stdin (i : stdin_src) : stdin_src :=
  match i with Input _ => Input "" | _ => i end.

(** What the process wrote to its error stream, in order. *)
Definition stderr_of (t : list event) : list string :=
  flat_map (fun ev => match ev with Stderr s => [s] | _ => [] end) t.

(** The argv of every spawned command, in order. *)
Definition argvs (t : list event) : list (list string) := map fst (argv_env t).

(** The events [exit_gracefully msg e] appends before it looks at [e]. *)
Definition eg_prefix (m : string) : list event :=
  [Stderr m; Stderr nl; Log ("Exiting with message: " ++ m)].

(** [m] appends to the trace and changes no attribute of the object. *)
Definition keeps {A} (m : M A) : Prop :=
  forall env st, exists d, snd (m env st) = set_trace (app (trace st) d) st.

(** The commands of the [finally] block of [copy_submission], in order. *)
Definition teardown_argvs (mp ed tmp : string) : list (list string) :=
  [ ["sync"]; ["sudo"; "umount"; mp]; ["sudo"; "cryptsetup"; "luksClose"; ed];
    ["rm"; "-rf"; tmp] ].

(** The exception [subprocess.check_call] raises for an answer, if any. *)
Definition check_outcome (r : cmd_result) : option exn :=
  match r with
  | NotFound => Some OSError
  | Ran rc _ => if Z.eqb rc 0 then None else Some (CalledProcessError rc PyNone)
  end.

(** [stops_at_first_failure final cmds d e]: [d] spawns [cmds] in order, with
    nothing in between, until the first one that fails; [e] is that
    failure's exception, or [final] when all of them succeed. *)
Inductive stops_at_first_failure (final : exn)
  : list (list string) -> list event -> exn -> Prop :=
  | saff_done : stops_at_first_failure final [] [] final
  | saff_fail c cs res e :
      check_outcome res = Some e ->
      stops_at_first_failure final (c :: cs) [Spawn c None NoStdin res] e
  | saff_ok c cs res d e :
      check_outcome res = None ->
      stops_at_first_failure final cs d e ->
      stops_at_first_failure final (c :: cs) (Spawn c None NoStdin res :: d) e.

(** [fin] always raises, and runs the commands [steps st] in the manner of
    [stops_at_first_failure], ending with [sys.exit(0)]. *)
Definition teardown_shape {A} (fin : M A) (steps : St -> list (list string))
  : Prop :=
  forall env st, exists d e,
    snd (fin env st) = set_trace (app (trace st) d) st /\
    stops_at_first_failure (SystemExit 0) (steps st) d e /\
    fst (fin env st) = Exc e.

(** The spawn unmounts a volume or re-locks a LUKS container. *)
Definition is_lock_or_unmount (argv : list string) : bool :=
  match argv with
  | "sudo" :: "cryptsetup" :: "luksClose" :: _ => true
  | "sudo" :: "umount" :: _ => true
  | _ => false
  end.

(** The argv occurs in the list. *)
Definition spawned (a : list string) (l : list (list string)) : bool :=
  existsb (Fixture.argv_eqb a) l.

(** An exception the code does not expect: neither [sys.exit] nor a
    [CalledProcessError]. The process then exits 1 with a traceback. *)
Definition unexpected (e : exn) : bool :=
  match e with
  | SystemExit _ | CalledProcessError _ _ => false
  | _ => true
  end.

(** The fixed text a [__main__] run with an [SDExport] object can write to
    stderr: the statuses its methods pass to [exit_gracefully], the
    newline, the text of a failed notification, the placeholder for an
    unreadable [e.output], and the traceback of an uncaught exception. *)
Definition SDEXPORT_TEXT : list string :=
  [nl; traceback; "ERROR_EXTRACTION"; "ERROR_METADATA_PARSING";
   "ERROR_ARCHIVE_METADATA"; "USB_ENCRYPTED"; "USB_NO_SUPPORTED_ENCRYPTION";
   "USB_BAD_PASSPHRASE"; "ERROR_USB_MOUNT"; "ERROR_USB_WRITE"; "ERROR_PRINT";
   "Error sending notification:"; "<unknown exception>"].

(** The event writes only text of [SDEXPORT_TEXT] to stderr. *)
Definition text_ok (ev : event) : Prop :=
  match ev with
  | Stderr s => existsb (String.eqb s) SDEXPORT_TEXT = true
  | _ => True
  end.

(** The outcome [r] with the appended events [d] is either [sys.exit(0)]
    after exactly one status of [S] and a newline on stderr, or an
    unexpected exception with nothing on stderr. *)
Definition reported (S : list string) {A} (r : res A) (d : list event) : Prop :=
  (r = Exc (SystemExit 0) /\ exists s, In s S /\ stderr_of d = [s; nl]) \/
  (exists e, r = Exc e /\ unexpected e = true /\ stderr_of d = []).

(** [m] never returns normally: every run is [reported S]. *)
Definition reports (S : list string) {A} (m : M A) : Prop :=
  forall env st, exists d,
    trace (snd (m env st)) = app (trace st) d /\ reported S (fst (m env st)) d.

(** [m] returns without writing to stderr, or its run is [reported S]. *)
Definition quiet_or_reports (S : list string) {A} (m : M A) : Prop :=
  forall env st, exists d,
    trace (snd (m env st)) = app (trace st) d /\
    ((exists a, fst (m env st) = Ok a /\ stderr_of d = []) \/
     reported S (fst (m env st)) d).

(** The commands a preflight check may spawn: the device listing and the
    [removable] attribute reads. *)
Definition probe_command (argv : list string) : bool :=
  match argv with
  | "lsblk" :: _ | "grep" :: _ | "cat" :: _ => true
  | _ => false
  end.

(** Machines and objects for the extra properties below. *)
Module MoreFixtures.
Definition printer_metadata : Metadata := mkMetadata (PyStr "printer") PyNone PyNone.
Definition printer_env : Env :=
  mkEnv (fun _ _ _ => Ran 0 "") (fun _ _ => false) (fun _ _ => true)
        (fun _ _ => true) (fun _ => true) (fun _ => Some printer_metadata)
        (fun _ _ => Some []).
Definition all_ok_env : Env :=
  mkEnv (fun _ _ _ => Ran 0 "") (fun _ _ => true) (fun _ _ => true)
        (fun _ _ => true) (fun _ => true) (fun _ => None) (fun _ _ => Some []).
Definition st0 : St := Main.init_st "/tmp/tmpx" "sd-export-20200101-000000".
Definition usb_st0 : St := USB.init_st "/tmp/tmpx".
(** Two disks: [sda] is removable, [sdb] is not. *)
Definition two_disks_env : Env :=
  Fixture.table_env
    [ (["cat"; "/sys/class/block/sda/removable"], Fixture.ok ("1" ++ nl));
      (["cat"; "/sys/class/block/sdb/removable"], Fixture.ok ("0" ++ nl)) ] [].
End MoreFixtures.

Create HintDb pres.

Lemma extends_refl P t : extends P t t.
Proof. exists []. rewrite app_nil_r. auto. Qed.

Lemma extends_trans P t1 t2 t3 :
  extends P t1 t2 -> extends P t2 t3 -> extends P t1 t3.
Proof.
  intros [d1 [-> H1]] [d2 [-> H2]].
  exists (app d1 d2). rewrite app_assoc. split; [reflexivity|].
  apply Forall_app; auto.
Qed.

Lemma pres_ret P A (a : A) : preserves P (ret a).
Proof. intros env st. apply extends_refl. Qed.

Lemma pres_raise P A e : preserves P (@raise A e).
Proof. intros env st. apply extends_refl. Qed.

Lemma pres_gets P A (f : St -> A) : preserves P (gets f).
Proof. intros env st. apply extends_refl. Qed.

Lemma pres_asks P A (f : Env -> list event -> A) : preserves P (asks f).
Proof. intros env st. apply extends_refl. Qed.

Lemma pres_modify P f :
  (forall s, trace (f s) = trace s) -> preserves P (modify f).
Proof. intros Hf env st. simpl. rewrite Hf. apply extends_refl. Qed.

Lemma pres_emit (P : event -> Prop) ev : P ev -> preserves P (emit ev).
Proof. intros H env st. exists [ev]. simpl. auto. Qed.

Lemma pres_bind P A B (m : M A) (k : A -> M B) :
  preserves P m -> (forall a, preserves P (k a)) -> preserves P (bind m k).
Proof.
  intros Hm Hk env st. unfold bind.
  specialize (Hm env st).
  destruct (m env st) as [[a|e] st1]; simpl in *; auto.
  eapply extends_trans; [exact Hm | apply Hk].
Qed.

Lemma pres_try_except P A (m : M A) c h :
  preserves P m -> (forall e, preserves P (h e)) ->
  preserves P (try_except m c h).
Proof.
  intros Hm Hh env st. unfold try_except.
  specialize (Hm env st).
  destruct (m env st) as [[a|e] st1]; simpl in *; auto.
  destruct (c e); simpl; auto.
  eapply extends_trans; [exact Hm | apply Hh].
Qed.

Lemma pres_try_finally P A (m : M A) fin :
  preserves P m -> preserves P fin -> preserves P (try_finally m fin).
Proof.
  intros Hm Hf env st. unfold try_finally.
  specialize (Hm env st).
  destruct (m env st) as [r st1]; simpl in *.
  specialize (Hf env st1).
  destruct (fin env st1) as [[u|e] st2]; simpl in *;
    eapply extends_trans; eauto.
Qed.

Lemma pres_spawn (P : event -> Prop) argv stdin :
  (forall r, P (Spawn argv None stdin r)) -> preserves P (spawn argv stdin).
Proof. intros H env st. eexists. simpl. split; [reflexivity|]. auto. Qed.

Lemma pres_weaken (P Q : event -> Prop) A (m : M A) :
  (forall ev, P ev -> Q ev) -> preserves P m -> preserves Q m.
Proof.
  intros HPQ Hm env st. destruct (Hm env st) as [d [Hd HF]].
  exists d. split; auto. eapply Forall_impl; eauto.
Qed.

Lemma pres_os_listdir P p : preserves P (os_listdir p).
Proof.
  unfold os_listdir. apply pres_bind; [apply pres_asks|intros []].
  - apply pres_ret.
  - apply pres_raise.
Qed.

Lemma pres_safe_check_call_no_self P c m :
  preserves P (safe_check_call_no_self c m).
Proof. apply pres_raise. Qed.

Lemma pres_self_attr P A n (f : St -> A) : preserves P (USB.self_attr n f).
Proof.
  unfold USB.self_attr. apply pres_bind; [apply pres_gets|intro u].
  destruct (existsb _ u); [apply pres_raise|apply pres_gets].
Qed.

#[global] Hint Resolve pres_ret pres_raise pres_gets pres_asks pres_bind
  pres_try_except pres_try_finally pres_os_listdir pres_safe_check_call_no_self
  pres_self_attr : pres.

Ltac pres_auto :=
  repeat (first
    [ apply pres_bind; [|intro]
    | apply pres_try_except; [|intro]
    | apply pres_try_finally
    | apply pres_ret | apply pres_raise | apply pres_gets | apply pres_asks
    | apply pres_os_listdir | apply pres_safe_check_call_no_self
    | apply pres_self_attr
    | apply pres_modify; reflexivity
    | apply pres_emit; simpl; auto
    | apply pres_spawn; intro; simpl; auto
    | match goal with
      | |- preserves _ (match ?x with _ => _ end) => destruct x
      | |- preserves _ (if ?b then _ else _) => destruct b
      end ]).

Section Primitives.
Variable Q : list string -> Prop.

Lemma pres_check_call argv : Q argv -> preserves (spawn_ok Q) (check_call argv).
Proof. intro H. unfold check_call. pres_auto. Qed.

Lemma pres_check_output argv :
  Q argv -> preserves (spawn_ok Q) (check_output argv).
Proof. intro H. unfold check_output. pres_auto. Qed.

Lemma pres_popen_with_key argv key :
  Q argv -> preserves (spawn_ok Q) (popen_with_key argv key).
Proof. intro H. unfold popen_with_key, popen_communicate. pres_auto. Qed.

Lemma pres_write_stderr v : preserves (spawn_ok Q) (write_stderr v).
Proof. unfold write_stderr. pres_auto. Qed.

Lemma pres_exit_gracefully msg e :
  preserves (spawn_ok Q) (exit_gracefully msg e).
Proof.
  unfold exit_gracefully, write_stderr, log, sys_exit, os_path_isdir,
    shutil_rmtree, getattr_output.
  pres_auto.
Qed.

Lemma pres_get_device : preserves (spawn_ok Q) get_device.
Proof. unfold get_device. pres_auto. Qed.

Lemma pres_safe_check_call c m :
  Q c -> preserves (spawn_ok Q) (safe_check_call c m).
Proof.
  intro H. unfold safe_check_call.
  apply pres_try_except; [apply pres_check_call; exact H|].
  intros []; try apply pres_ret. apply pres_exit_gracefully.
Qed.

End Primitives.

#[global] Hint Resolve pres_check_call pres_check_output pres_popen_with_key
  pres_write_stderr pres_exit_gracefully pres_get_device pres_safe_check_call
  : pres.

Ltac pres_full :=
  repeat (first
    [ apply pres_exit_gracefully | apply pres_write_stderr
    | apply pres_get_device
    | apply pres_check_call; simpl; try discriminate; auto
    | apply pres_check_output; simpl; try discriminate; auto
    | apply pres_popen_with_key; simpl; try discriminate; auto
    | apply pres_safe_check_call; simpl; try discriminate; auto
    | apply pres_bind; [|intro]
    | apply pres_try_except; [|intro]
    | apply pres_try_finally
    | apply pres_ret | apply pres_raise | apply pres_gets | apply pres_asks
    | apply pres_os_listdir | apply pres_safe_check_call_no_self
    | apply pres_self_attr
    | apply pres_modify; reflexivity
    | apply pres_emit; simpl; auto
    | apply pres_spawn; intro; simpl; auto
    | match goal with
      | |- preserves _ (match ?x with _ => _ end) => destruct x
      | |- preserves _ (if ?b then _ else _) => destruct b
      end ]).

Lemma sdexport_unlock_quiet key :
  preserves (spawn_ok not_isLuks) (SDExport.unlock_luks_volume key).
Proof.
  unfold SDExport.unlock_luks_volume, exit_gracefully_msg, os_path_exists.
  pres_full; unfold not_isLuks; simpl; congruence.
Qed.

Lemma sdexport_extract_quiet :
  preserves (spawn_ok not_isLuks) SDExport.extract_tarball.
Proof.
  unfold SDExport.extract_tarball, exit_gracefully_msg. pres_full.
Qed.

Lemma sdexport_mount_quiet :
  preserves (spawn_ok not_isLuks) SDExport.mount_volume.
Proof.
  unfold SDExport.mount_volume, exit_gracefully_msg, os_path_exists.
  pres_full; unfold not_isLuks; simpl; congruence.
Qed.

Lemma sdexport_copy_quiet :
  preserves (spawn_ok not_isLuks) SDExport.copy_submission.
Proof.
  unfold SDExport.copy_submission, SDExport.copy_try, SDExport.copy_teardown, exit_gracefully_msg,
    sys_exit.
  pres_full; unfold not_isLuks; simpl; congruence.
Qed.

Lemma sdexport_popup_quiet msg :
  preserves (spawn_ok not_isLuks) (SDExport.popup_message msg).
Proof.
  unfold SDExport.popup_message, notify_send.
  pres_full; unfold not_isLuks; simpl; congruence.
Qed.

Lemma print_file_quiet f :
  preserves (spawn_ok not_isLuks) (SDPrint.print_file f).
Proof.
  unfold SDPrint.print_file, exit_gracefully_msg.
  pres_full; unfold not_isLuks; simpl; congruence.
Qed.

Lemma print_loop_quiet fp total fs n :
  preserves (spawn_ok not_isLuks) (SDPrint.print_loop fp total fs n).
Proof.
  revert n. induction fs as [|f fs IH]; intro n; simpl.
  - apply pres_ret.
  - apply pres_bind; [apply print_file_quiet|intros _].
    apply pres_bind; [apply sdexport_popup_quiet|intros _]. apply IH.
Qed.

Lemma sdexport_print_all_quiet :
  preserves (spawn_ok not_isLuks) SDPrint.print_all_files.
Proof.
  unfold SDPrint.print_all_files.
  apply pres_bind; [apply pres_gets|intro].
  apply pres_bind; [apply pres_os_listdir|intro]. apply print_loop_quiet.
Qed.

Lemma sdexport_print_test_quiet :
  preserves (spawn_ok not_isLuks) SDPrint.print_test_page.
Proof.
  unfold SDPrint.print_test_page.
  apply pres_bind; [apply print_file_quiet|intros _]. apply sdexport_popup_quiet.
Qed.

Lemma calls_app d1 d2 : calls (app d1 d2) = app (calls d1) (calls d2).
Proof. induction d1 as [|[] d1 IH]; simpl; f_equal; auto. Qed.

Lemma calls_quiet Q d : Forall (spawn_ok Q) d -> calls d = [].
Proof. induction 1 as [|[] d H _ IH]; simpl in *; tauto. Qed.

Lemma valid_methods m :
  Main.is_valid m = true ->
  exists s, export_method m = PyStr s /\ In s Main.SUPPORTED_EXPORT_METHODS.
Proof.
  unfold Main.is_valid. intro H.
  destruct (Main.py_in (export_method m) Main.SUPPORTED_EXPORT_METHODS) eqn:E;
    [clear H | discriminate].
  unfold Main.py_in in E.
  destruct (export_method m) as [| |s| | |]; try discriminate.
  exists s. split; [reflexivity|].
  apply existsb_exists in E as [x [Hx Hs]]. apply String.eqb_eq in Hs.
  subst. exact Hx.
Qed.

Lemma quiet_soc Q d : Forall (spawn_ok Q) d -> Forall (spawn_or_call Q) d.
Proof. apply Forall_impl. intros []; simpl; auto. Qed.

(** [__main__] on valid metadata, for any submission whose methods only
    spawn commands passing [Q]. *)
Section MainShape.
Variable Q : list string -> Prop.
Variable S : Main.Submission.
Hypothesis Hext : preserves (spawn_ok Q) (Main.extract_tarball S).
Hypothesis Hunlock : forall k, preserves (spawn_ok Q) (Main.unlock_luks_volume S k).
Hypothesis Hmount : preserves (spawn_ok Q) (Main.mount_volume S).
Hypothesis Hcopy : preserves (spawn_ok Q) (Main.copy_submission S).
Hypothesis Hsetup : preserves (spawn_ok Q) (Main.setup_printer S).
Hypothesis Hpall : preserves (spawn_ok Q) (Main.print_all_files S).
Hypothesis Hptest : preserves (spawn_ok Q) (Main.print_test_page S).

Ltac stepX f env st0 :=
  let E := fresh "E" in
  let Hp := fresh "Hp" in
  assert (Hp : extends (spawn_ok Q) (trace st0) (trace (snd (f env st0))))
    by (first [apply Hext | apply Hunlock | apply Hmount
              | apply Hcopy | apply Hsetup | apply Hpall | apply Hptest]);
  destruct (f env st0) as [[?|?] ?] eqn:E; simpl in Hp;
  let d := fresh "d" in let Hd := fresh "Hd" in let HF := fresh "HF" in
  destruct Hp as [d [Hd HF]]; simpl in Hd.

Ltac stepS :=
  match goal with
  | |- context [ Main.extract_tarball ?S' ?env ?st0 ] =>
      stepX (Main.extract_tarball S') env st0
  | |- context [ Main.unlock_luks_volume ?S' ?k ?env ?st0 ] =>
      stepX (Main.unlock_luks_volume S' k) env st0
  | |- context [ Main.mount_volume ?S' ?env ?st0 ] =>
      stepX (Main.mount_volume S') env st0
  | |- context [ Main.copy_submission ?S' ?env ?st0 ] =>
      stepX (Main.copy_submission S') env st0
  | |- context [ Main.setup_printer ?S' ?env ?st0 ] =>
      stepX (Main.setup_printer S') env st0
  | |- context [ Main.print_all_files ?S' ?env ?st0 ] =>
      stepX (Main.print_all_files S') env st0
  | |- context [ Main.print_test_page ?S' ?env ?st0 ] =>
      stepX (Main.print_test_page S') env st0
  end.

Ltac finish :=
  simpl;
  repeat match goal with
         | H : trace ?x = _ |- context [trace ?x] => rewrite H
         end;
  eexists; split; [rewrite <- ?app_assoc; reflexivity|];
  repeat rewrite ?calls_app;
  repeat match goal with
         | H : Forall (spawn_ok Q) ?d |- _ =>
             rewrite (calls_quiet Q d H); apply (quiet_soc Q) in H
         end;
  simpl;
  repeat split;
  [ repeat (first [ assumption | apply Forall_app; split
                  | apply Forall_cons; [exact I|] | apply Forall_nil ])
  | intuition discriminate
  | intuition discriminate
  | intro; try discriminate;
    match goal with |- exists k, ?L = _ => exists (length L); reflexivity end ].

Lemma main_dispatch_shape (env : Env) (st : St) (m : Metadata)
  (Hmd : forall t, read_metadata env t = Some m) (Hvalid : Main.is_valid m = true) :
  exists d,
    trace (snd (Main.__main__ S env st)) = app (trace st) d /\
    Forall (spawn_or_call Q) d /\
    ~ In "check_luks_volume" (calls d) /\
    ~ In "check_printer_connected" (calls d) /\
    (Main.py_eq (export_method m) "disk" = true ->
     exists k, calls d = firstn k ["extract_tarball"; "unlock_luks_volume";
                                   "mount_volume"; "copy_submission"]).
Proof.
  destruct (valid_methods m Hvalid) as [s [Hs Hin]].
  cbv [Main.__main__ Main.invoke bind emit try_except gets Main.read_metadata_file asks modify raise ret].
  simpl.
  stepS; [|finish].
  rewrite Hmd. simpl. rewrite Hvalid, Hs.
  simpl in Hin.
  destruct Hin as [<-|[<-|[<-|[<-|[<-|[]]]]]]; simpl.
  - finish.
  - stepS; [|finish]. stepS; [|finish]. stepS; finish.
  - finish.
  - stepS; [|finish]. stepS; finish.
  - stepS; [|finish]. stepS; finish.
Qed.
End MainShape.

Lemma sdexport_methods_quiet :
  preserves (spawn_ok not_isLuks) (Main.extract_tarball Main.sdexport) /\
  (forall k, preserves (spawn_ok not_isLuks) (Main.unlock_luks_volume Main.sdexport k)) /\
  preserves (spawn_ok not_isLuks) (Main.mount_volume Main.sdexport) /\
  preserves (spawn_ok not_isLuks) (Main.copy_submission Main.sdexport) /\
  preserves (spawn_ok not_isLuks) (Main.setup_printer Main.sdexport) /\
  preserves (spawn_ok not_isLuks) (Main.print_all_files Main.sdexport) /\
  preserves (spawn_ok not_isLuks) (Main.print_test_page Main.sdexport).
Proof.
  simpl. repeat split.
  - apply sdexport_extract_quiet.
  - apply sdexport_unlock_quiet.
  - apply sdexport_mount_quiet.
  - apply sdexport_copy_quiet.
  - apply pres_raise.
  - apply sdexport_print_all_quiet.
  - apply sdexport_print_test_quiet.
Qed.

(** ** Claim C10 *)

(** C10: for every archive whose metadata passes [Metadata.is_valid], the
    [__main__] dispatch (with an [SDExport] submission) never reaches the
    "disk-check" or "printer-check" branches, so [check_luks_volume] is never
    called and no [cryptsetup isLuks] command is ever spawned; for the
    "disk" method the methods reached are, in order, a prefix of
    [extract_tarball], [unlock_luks_volume], [mount_volume],
    [copy_submission]: unlocking comes directly after extraction. *)
Theorem main_valid_metadata_skips_luks_check (env : Env) (st : St)
  (m : Metadata)
  (Hmd : forall t, read_metadata env t = Some m)
  (Hvalid : Main.is_valid m = true) :
  exists d,
    trace (snd (Main.__main__ Main.sdexport env st)) = app (trace st) d /\
    ~ In "check_luks_volume" (calls d) /\
    ~ In "check_printer_connected" (calls d) /\
    Forall (spawn_or_call not_isLuks) d /\
    (Main.py_eq (export_method m) "disk" = true ->
     exists k, calls d = firstn k ["extract_tarball"; "unlock_luks_volume";
                                   "mount_volume"; "copy_submission"]).
Proof.
  destruct sdexport_methods_quiet as (H1 & H3 & H4 & H5 & H6 & H7 & H8).
  destruct (main_dispatch_shape not_isLuks Main.sdexport H1 H3 H4 H5 H6 H7
              H8 env st m Hmd Hvalid) as (d & Hd & HF & Hc1 & Hc2 & Hk).
  exists d. auto.
Qed.

Lemma main_valid_metadata_skips_luks_check_witness :
  (forall t, read_metadata Fixture.happy t = Some Fixture.disk_metadata) /\
  Main.is_valid Fixture.disk_metadata = true /\
  exists d,
    trace (snd (Main.__main__ Main.sdexport Fixture.happy
                  (Main.init_st Fixture.TMP Fixture.TARGET))) = d /\
    ~ In "check_luks_volume" (calls d) /\
    ~ In "check_printer_connected" (calls d) /\
    Forall (spawn_or_call not_isLuks) d /\
    (Main.py_eq (export_method Fixture.disk_metadata) "disk" = true ->
     exists k, calls d = firstn k ["extract_tarball"; "unlock_luks_volume";
                                   "mount_volume"; "copy_submission"]).
Proof.
  split; [intro; reflexivity|]. split; [reflexivity|].
  apply (main_valid_metadata_skips_luks_check Fixture.happy
           (Main.init_st Fixture.TMP Fixture.TARGET) Fixture.disk_metadata);
    [intro; reflexivity | reflexivity].
Defined.

(* ------------------------------------------------------------------ *)
(** ** Two runs that differ only in the passphrase *)

Lemma erase_app t1 t2 : erase (app t1 t2) = app (erase t1) (erase t2).
Proof. apply map_app. Qed.

Lemma argv_env_erase t : argv_env (erase t) = argv_env t.
Proof.
  induction t as [|[a e i r| | | |] t IH]; simpl; try (rewrite IH; reflexivity).
  - reflexivity.
  - destruct i; simpl; rewrite IH; reflexivity.
Qed.

Lemma st_rel_field {A} (f : St -> A) s1 s2 :
  (forall s, f s = f (set_trace [] s)) -> st_rel s1 s2 -> f s1 = f s2.
Proof. intros Hf [_ H]. rewrite (Hf s1), (Hf s2), H. reflexivity. Qed.

Lemma rel_ret A (a : A) : rel (ret a) (ret a).
Proof. intros env s1 s2 _ H. simpl. auto. Qed.

Lemma rel_raise A e : rel (@raise A e) (@raise A e).
Proof. intros env s1 s2 _ H. simpl. auto. Qed.

Lemma rel_bind A B (m1 m2 : M A) (k1 k2 : A -> M B) :
  rel m1 m2 -> (forall a, rel (k1 a) (k2 a)) -> rel (bind m1 k1) (bind m2 k2).
Proof.
  intros Hm Hk env s1 s2 Henv Hs. unfold bind.
  destruct (Hm env s1 s2 Henv Hs) as [Hr Hst].
  destruct (m1 env s1) as [r1 t1], (m2 env s2) as [r2 t2]; simpl in *. subst.
  destruct r2; simpl; [apply Hk|]; auto.
Qed.

Lemma rel_gets A (f : St -> A) :
  (forall s, f s = f (set_trace [] s)) -> rel (gets f) (gets f).
Proof.
  intros Hf env s1 s2 _ Hs. simpl. split; auto.
  f_equal. apply (st_rel_field f); auto.
Qed.

Lemma rel_asks A (f : Env -> list event -> A) :
  (forall env t1 t2, env_low env -> erase t1 = erase t2 -> f env t1 = f env t2) ->
  rel (asks f) (asks f).
Proof.
  intros Hf env s1 s2 Henv Hs. simpl. split; auto.
  f_equal. apply Hf; auto. apply Hs.
Qed.

Lemma rel_modify f :
  (forall s, trace (f s) = trace s) ->
  (forall s, set_trace [] (f s) = f (set_trace [] s)) ->
  rel (modify f) (modify f).
Proof.
  intros Ht Hc env s1 s2 _ [He Hs]. simpl. split; auto. split.
  - rewrite !Ht. exact He.
  - rewrite !Hc, Hs. reflexivity.
Qed.

Lemma trace_set_trace t s : trace (set_trace t s) = t.
Proof. reflexivity. Qed.

Lemma set_trace_twice t t' s : set_trace t (set_trace t' s) = set_trace t s.
Proof. reflexivity. Qed.

Lemma rel_emit ev : rel (emit ev) (emit ev).
Proof.
  intros env s1 s2 _ [He Hs]. unfold emit. cbn [fst snd].
  split; auto. split.
  - rewrite !trace_set_trace, !erase_app, He. reflexivity.
  - rewrite !set_trace_twice. exact Hs.
Qed.

Lemma rel_spawn argv i1 i2 :
  erase_stdin i1 = erase_stdin i2 -> rel (spawn argv i1) (spawn argv i2).
Proof.
  intros Hi env s1 s2 Henv [He Hs]. unfold spawn. cbn [fst snd].
  destruct (Henv _ _ He) as [Hrun _].
  rewrite (Hrun argv i1 i2). split; auto. split; [|rewrite !set_trace_twice; exact Hs].
  rewrite !trace_set_trace, !erase_app, He. simpl. f_equal. f_equal.
  destruct i1, i2; simpl in *; congruence.
Qed.

Lemma rel_try_except A (m1 m2 : M A) c h1 h2 :
  rel m1 m2 -> (forall e, rel (h1 e) (h2 e)) ->
  rel (try_except m1 c h1) (try_except m2 c h2).
Proof.
  intros Hm Hh env s1 s2 Henv Hs. unfold try_except.
  destruct (Hm env s1 s2 Henv Hs) as [Hr Hst].
  destruct (m1 env s1) as [r1 t1], (m2 env s2) as [r2 t2]; simpl in *. subst.
  destruct r2; simpl; auto. destruct (c e); simpl; [apply Hh|]; auto.
Qed.

Lemma rel_try_finally A (m1 m2 : M A) f1 f2 :
  rel m1 m2 -> rel f1 f2 -> rel (try_finally m1 f1) (try_finally m2 f2).
Proof.
  intros Hm Hf env s1 s2 Henv Hs. unfold try_finally.
  destruct (Hm env s1 s2 Henv Hs) as [Hr Hst].
  destruct (m1 env s1) as [r1 t1], (m2 env s2) as [r2 t2]; simpl in *. subst.
  destruct (Hf env t1 t2 Henv Hst) as [Hr' Hst'].
  destruct (f1 env t1) as [q1 u1], (f2 env t2) as [q2 u2]; simpl in *. subst.
  destruct q2; simpl; auto.
Qed.

Create HintDb reldb.

Ltac rel_auto :=
  repeat (first
    [ solve [eauto with reldb]
    | apply rel_bind; [|intro]
    | apply rel_try_except; [|intro]
    | apply rel_try_finally
    | apply rel_ret | apply rel_raise
    | apply rel_gets; reflexivity
    | apply rel_asks; intros ? ? ? Henv' Het';
      destruct (Henv' _ _ Het') as (? & Hx & Hd & Hm & Ht & Hmd & Hl);
      cbv beta; first [apply Hx | apply Hd | apply Hm | apply Ht | apply Hmd
                      | apply Hl]
    | apply rel_modify; reflexivity
    | apply rel_emit
    | apply rel_spawn; reflexivity
    | match goal with
      | |- rel (match ?x with _ => _ end) (match ?x with _ => _ end) => destruct x
      | |- rel (if ?b then _ else _) (if ?b then _ else _) => destruct b
      end ]).

Lemma rel_exit_gracefully msg e :
  rel (exit_gracefully msg e) (exit_gracefully msg e).
Proof.
  unfold exit_gracefully, write_stderr, log, sys_exit, os_path_isdir,
    shutil_rmtree, getattr_output.
  rel_auto.
Qed.
#[local] Hint Resolve rel_exit_gracefully : reldb.

Lemma rel_check_call a : rel (check_call a) (check_call a).
Proof. unfold check_call. rel_auto. Qed.
#[local] Hint Resolve rel_check_call : reldb.

Lemma rel_check_output a : rel (check_output a) (check_output a).
Proof. unfold check_output. rel_auto. Qed.
#[local] Hint Resolve rel_check_output : reldb.

Lemma rel_write_stderr v : rel (write_stderr v) (write_stderr v).
Proof. unfold write_stderr. rel_auto. Qed.
#[local] Hint Resolve rel_write_stderr : reldb.

Lemma rel_get_device : rel get_device get_device.
Proof. unfold get_device. rel_auto. Qed.
#[local] Hint Resolve rel_get_device : reldb.

Lemma rel_safe_check_call c m : rel (safe_check_call c m) (safe_check_call c m).
Proof. unfold safe_check_call. rel_auto. Qed.
#[local] Hint Resolve rel_safe_check_call : reldb.

Lemma rel_popup_message msg : rel (popup_message msg) (popup_message msg).
Proof. unfold popup_message. rel_auto. Qed.
#[local] Hint Resolve rel_popup_message : reldb.

(** The key itself reaches the child only through [Input]. *)
Lemma rel_popen_with_key a k1 k2 :
  rel (popen_with_key a (PyStr k1)) (popen_with_key a (PyStr k2)).
Proof. unfold popen_with_key, popen_communicate. rel_auto. Qed.
#[local] Hint Resolve rel_popen_with_key : reldb.

Lemma rel_mapM A B (f : A -> M B) :
  (forall x, rel (f x) (f x)) -> forall l, rel (USB.mapM f l) (USB.mapM f l).
Proof. intros Hf l. induction l; simpl; rel_auto. Qed.

Lemma rel_list_disks : rel USB.list_disks USB.list_disks.
Proof.
  unfold USB.list_disks. rel_auto. apply rel_mapM.
  intro. unfold USB.first_word. rel_auto.
Qed.
#[local] Hint Resolve rel_list_disks : reldb.

Lemma rel_select_removable l :
  rel (USB.select_removable l) (USB.select_removable l).
Proof. induction l; simpl; unfold USB.is_removable; rel_auto. Qed.
#[local] Hint Resolve rel_select_removable : reldb.

Lemma rel_get_connected_usbs : rel USB._get_connected_usbs USB._get_connected_usbs.
Proof. unfold USB._get_connected_usbs, exit_gracefully_msg. rel_auto. Qed.
#[local] Hint Resolve rel_get_connected_usbs : reldb.

Lemma rel_set_extracted_device_name :
  rel USB.set_extracted_device_name USB.set_extracted_device_name.
Proof. unfold USB.set_extracted_device_name, exit_gracefully_msg. rel_auto. Qed.
#[local] Hint Resolve rel_set_extracted_device_name : reldb.

Lemma rel_scan_luks_header l :
  rel (USB.scan_luks_header l) (USB.scan_luks_header l).
Proof. induction l; simpl; rel_auto. Qed.
#[local] Hint Resolve rel_scan_luks_header : reldb.

Lemma rel_usb_unlock k1 k2 :
  rel (USB.unlock_luks_volume (PyStr k1)) (USB.unlock_luks_volume (PyStr k2)).
Proof. unfold USB.unlock_luks_volume, exit_gracefully_msg. rel_auto. Qed.

Lemma rel_sdexport_unlock k1 k2 :
  rel (SDExport.unlock_luks_volume (PyStr k1))
      (SDExport.unlock_luks_volume (PyStr k2)).
Proof. unfold SDExport.unlock_luks_volume, exit_gracefully_msg. rel_auto. Qed.

Lemma rel_usb_export_run k1 k2 tmp tgt :
  rel (USB.export_run (PyStr k1) tmp tgt) (USB.export_run (PyStr k2) tmp tgt).
Proof.
  unfold USB.export_run, USB.check_usb_connected, USB.mount_volume,
    USB.copy_submission, USB.copy_try, USB.copy_teardown, exit_gracefully_msg.
  apply rel_bind; [rel_auto|intro].
  apply rel_bind; [apply rel_usb_unlock|intro].
  rel_auto.
Qed.

Lemma rel_sdexport_mount : rel SDExport.mount_volume SDExport.mount_volume.
Proof. unfold SDExport.mount_volume, os_path_exists, exit_gracefully_msg. rel_auto. Qed.

Lemma rel_sdexport_copy : rel SDExport.copy_submission SDExport.copy_submission.
Proof.
  unfold SDExport.copy_submission, SDExport.copy_try, SDExport.copy_teardown,
    exit_gracefully_msg, sys_exit.
  rel_auto.
Qed.

(** The disk branch of [__main__] with an [SDExport] object. *)
Lemma rel_sdexport_disk k1 k2 :
  rel (SDExport.unlock_luks_volume (PyStr k1) ;; SDExport.mount_volume ;;
       SDExport.copy_submission)
      (SDExport.unlock_luks_volume (PyStr k2) ;; SDExport.mount_volume ;;
       SDExport.copy_submission).
Proof.
  apply rel_bind; [apply rel_sdexport_unlock|intros _].
  apply rel_bind; [apply rel_sdexport_mount|intros _]. apply rel_sdexport_copy.
Qed.

Lemma mapper_opened_erase t p :
  Fixture.mapper_opened (erase t) p = Fixture.mapper_opened t p.
Proof.
  unfold Fixture.mapper_opened, erase.
  induction t as [|ev t IH]; [reflexivity|].
  cbn [map existsb]. rewrite IH. f_equal.
  destruct ev as [a e i r| | | |]; try reflexivity. destruct i; reflexivity.
Qed.

(** A machine answering from a table, whatever the children read. *)
Lemma env_low_table_env tbl paths : env_low (Fixture.table_env tbl paths).
Proof.
  intros t1 t2 He. cbn [run_cmd fs_exists fs_isdir fs_rmtree_ok tar_extract_ok
                         read_metadata fs_listdir Fixture.table_env].
  repeat split; try reflexivity.
  intro p. rewrite <- (mapper_opened_erase t1), <- (mapper_opened_erase t2), He.
  reflexivity.
Qed.

Lemma rel_same_commands A (m1 m2 : M A) env st :
  rel m1 m2 -> env_low env ->
  fst (m1 env st) = fst (m2 env st) /\
  argv_env (trace (snd (m1 env st))) = argv_env (trace (snd (m2 env st))).
Proof.
  intros Hm Henv. destruct (Hm env st st Henv (conj eq_refl eq_refl)) as [Hr [He _]].
  split; [exact Hr|]. rewrite <- (argv_env_erase (trace (snd (m1 env st)))), He.
  apply argv_env_erase.
Qed.

(** C7: the passphrase reaches a child only through its standard input.
    On a machine whose answers do not depend on what a child reads from
    its stdin ([env_low]), two runs with passphrases [k1] and [k2] from
    the same state end with the same outcome and spawn the same commands,
    with the same argument vectors and the same environment, in the same
    order: this holds for [USBActionMixin.unlock_luks_volume], for
    [SDExport.unlock_luks_volume], for the whole [USBExportAction.run],
    and for the whole disk export [__main__] runs with an [SDExport]
    object (unlock, mount, copy). *)
Theorem passphrase_only_on_stdin (env : Env) (Henv : env_low env) :
  (forall st k1 k2,
     fst (USB.unlock_luks_volume (PyStr k1) env st)
       = fst (USB.unlock_luks_volume (PyStr k2) env st) /\
     argv_env (trace (snd (USB.unlock_luks_volume (PyStr k1) env st)))
       = argv_env (trace (snd (USB.unlock_luks_volume (PyStr k2) env st)))) /\
  (forall st k1 k2,
     fst (SDExport.unlock_luks_volume (PyStr k1) env st)
       = fst (SDExport.unlock_luks_volume (PyStr k2) env st) /\
     argv_env (trace (snd (SDExport.unlock_luks_volume (PyStr k1) env st)))
       = argv_env (trace (snd (SDExport.unlock_luks_volume (PyStr k2) env st)))) /\
  (forall st k1 k2 tmp tgt,
     fst (USB.export_run (PyStr k1) tmp tgt env st)
       = fst (USB.export_run (PyStr k2) tmp tgt env st) /\
     argv_env (trace (snd (USB.export_run (PyStr k1) tmp tgt env st)))
       = argv_env (trace (snd (USB.export_run (PyStr k2) tmp tgt env st)))) /\
  (forall st k1 k2,
     let run k := (SDExport.unlock_luks_volume (PyStr k) ;;
                   SDExport.mount_volume ;; SDExport.copy_submission) in
     fst (run k1 env st) = fst (run k2 env st) /\
     argv_env (trace (snd (run k1 env st)))
       = argv_env (trace (snd (run k2 env st)))).
Proof.
  split; [|split; [|split]]; intros *; apply rel_same_commands; auto.
  - apply rel_usb_unlock.
  - apply rel_sdexport_unlock.
  - apply rel_usb_export_run.
  - apply rel_sdexport_disk.
Qed.

(** On concrete machines where [cryptsetup luksOpen] does run. *)
Lemma passphrase_only_on_stdin_witness :
  env_low Fixture.happy /\ env_low Fixture.sd_write_and_umount_fail /\
  (argv_env (trace (snd (USB.unlock_luks_volume (PyStr "hunter2") Fixture.happy
                           (set_device (Some "/dev/sda") (USB.init_st Fixture.TMP)))))
     = argv_env (trace (snd (USB.unlock_luks_volume (PyStr "letmein") Fixture.happy
                           (set_device (Some "/dev/sda") (USB.init_st Fixture.TMP))))) /\
   In ["sudo"; "cryptsetup"; "luksOpen"; "/dev/sda1"; "luks-abc-123"]
     (argvs (trace (snd (USB.unlock_luks_volume (PyStr "hunter2") Fixture.happy
                           (set_device (Some "/dev/sda") (USB.init_st Fixture.TMP))))))) /\
  (argv_env (trace (snd (SDExport.unlock_luks_volume (PyStr "hunter2") Fixture.happy
                           (Main.init_st Fixture.TMP Fixture.TARGET))))
     = argv_env (trace (snd (SDExport.unlock_luks_volume (PyStr "letmein") Fixture.happy
                           (Main.init_st Fixture.TMP Fixture.TARGET)))) /\
   In ["sudo"; "cryptsetup"; "luksOpen"; "/dev/sda1"; "encrypted_volume"]
     (argvs (trace (snd (SDExport.unlock_luks_volume (PyStr "hunter2") Fixture.happy
                           (Main.init_st Fixture.TMP Fixture.TARGET)))))) /\
  (argv_env (trace (snd (USB.export_run (PyStr "hunter2") Fixture.TMP Fixture.TARGET
                           Fixture.happy (USB.init_st Fixture.TMP))))
     = argv_env (trace (snd (USB.export_run (PyStr "letmein") Fixture.TMP Fixture.TARGET
                           Fixture.happy (USB.init_st Fixture.TMP)))) /\
   In ["sudo"; "cryptsetup"; "luksOpen"; "/dev/sda1"; "luks-abc-123"]
     (argvs (trace (snd (USB.export_run (PyStr "hunter2") Fixture.TMP Fixture.TARGET
                           Fixture.happy (USB.init_st Fixture.TMP)))))) /\
  (argv_env (trace (snd ((SDExport.unlock_luks_volume (PyStr "hunter2") ;;
                          SDExport.mount_volume ;; SDExport.copy_submission)
                           Fixture.sd_write_and_umount_fail
                           (Main.init_st Fixture.TMP Fixture.TARGET))))
     = argv_env (trace (snd ((SDExport.unlock_luks_volume (PyStr "letmein") ;;
                          SDExport.mount_volume ;; SDExport.copy_submission)
                           Fixture.sd_write_and_umount_fail
                           (Main.init_st Fixture.TMP Fixture.TARGET)))) /\
   In ["sudo"; "cryptsetup"; "luksOpen"; "/dev/sda1"; "encrypted_volume"]
     (argvs (trace (snd ((SDExport.unlock_luks_volume (PyStr "hunter2") ;;
                          SDExport.mount_volume ;; SDExport.copy_submission)
                           Fixture.sd_write_and_umount_fail
                           (Main.init_st Fixture.TMP Fixture.TARGET)))))).
Proof.
  pose proof (passphrase_only_on_stdin Fixture.happy
                (env_low_table_env _ _)) as (H1 & H2 & H3 & _).
  pose proof (passphrase_only_on_stdin Fixture.sd_write_and_umount_fail
                (env_low_table_env _ _)) as (_ & _ & _ & H4).
  split; [apply env_low_table_env|]. split; [apply env_low_table_env|].
  split; [split; [apply H1|vm_compute; auto 7]|].
  split; [split; [apply H2|vm_compute; auto]|].
  split; [split; [apply H3|vm_compute; auto 7]|].
  split; [apply H4|vm_compute; auto].
Defined.

Lemma stderr_of_app t1 t2 : stderr_of (app t1 t2) = app (stderr_of t1) (stderr_of t2).
Proof. apply flat_map_app. Qed.

(* ------------------------------------------------------------------ *)
(** ** Claim C5 *)

(** C5 (amended): once [_get_connected_usbs] has returned the list [l],
    [check_usb_connected(exit)] reports [USB_NOT_CONNECTED] when [l] is
    empty; when [l] has one device it makes that device the target and
    reports [USB_CONNECTED] only if [exit] is set (otherwise it returns and
    writes nothing); with two or more devices it reports [ERROR_GENERIC].
    Every report is the status and a newline on stderr, then exit 0. *)
Theorem check_usb_connected_status (env : Env) (st st1 : St) (exit : bool)
  (l : list string) (H : USB._get_connected_usbs env st = (Ok l, st1)) :
  let r := fst (USB.check_usb_connected exit env st) in
  let st2 := snd (USB.check_usb_connected exit env st) in
  exists d, trace st2 = app (trace st1) d /\
  match l with
  | [] => r = Exc (SystemExit 0) /\ stderr_of d = ["USB_NOT_CONNECTED"; nl] /\
          device st2 = device st1
  | [dev] => device st2 = Some dev /\
             (if exit then r = Exc (SystemExit 0) /\ stderr_of d = ["USB_CONNECTED"; nl]
              else r = Ok tt /\ d = [])
  | _ => r = Exc (SystemExit 0) /\ stderr_of d = ["ERROR_GENERIC"; nl] /\
         device st2 = device st1
  end.
Proof.
  intros r st2. subst r st2.
  unfold USB.check_usb_connected, bind. rewrite H.
  unfold exit_gracefully_msg, exit_gracefully, write_stderr, log, sys_exit,
    bind, ret, raise, emit, modify.
  destruct l as [|dev [|d' l]]; [| destruct exit |]; simpl;
  first [ exists []; split; [rewrite app_nil_r; reflexivity|]
        | eexists; split; [rewrite <- ?app_assoc; reflexivity|] ]; simpl;
  repeat split; reflexivity.
Qed.

(* ------------------------------------------------------------------ *)
(** ** Claim C8 *)

(** C8 (amended): when [lsblk -o TYPE --noheadings <device>] succeeds and
    its output has [n] lines equal to [part], [set_extracted_device_name]
    keeps the device when [n = 0], sets it to the device path with ["1"]
    appended when [n = 1], and when [n > 1] reports
    [USB_ENCRYPTION_NOT_SUPPORTED] (status and newline on stderr, exit 0)
    without changing the device. *)
Theorem set_extracted_device_name_cases (env : Env) (st : St) (dev out : string)
  (Hdev : device st = Some dev)
  (Hrun : run_cmd env (trace st) ["lsblk"; "-o"; "TYPE"; "--noheadings"; dev] NoStdin
          = Ran 0 out) :
  let n := PyStr.count "part" (PyStr.split_char "010"%char out) in
  let r := fst (USB.set_extracted_device_name env st) in
  let st2 := snd (USB.set_extracted_device_name env st) in
  exists d, trace st2 = app (trace st) d /\
  (n = 0%nat -> r = Ok tt /\ device st2 = Some dev /\ stderr_of d = []) /\
  (n = 1%nat -> r = Ok tt /\ device st2 = Some (dev ++ "1") /\ stderr_of d = []) /\
  ((1 < n)%nat -> r = Exc (SystemExit 0) /\ device st2 = Some dev /\
                 stderr_of d = ["USB_ENCRYPTION_NOT_SUPPORTED"; nl]).
Proof.
  intros n r st2. subst r st2.
  unfold USB.set_extracted_device_name, get_device, check_output, spawn,
    exit_gracefully_msg, exit_gracefully, write_stderr, log, sys_exit,
    try_except, bind, ret, raise, emit, modify, gets.
  rewrite Hdev. simpl. rewrite Hrun. simpl. fold n.
  destruct n as [|[|k]] eqn:Hn; simpl.
  - eexists. split; [reflexivity|]. repeat split; intros; try lia; simpl; rewrite ?Hdev; reflexivity.
  - eexists. split; [reflexivity|]. repeat split; intros; try lia.
  - eexists. split; [rewrite <- ?app_assoc; reflexivity|]. repeat split; intros; try lia.
    simpl. rewrite Hdev. reflexivity.
Qed.


Lemma keeps_ret A (a : A) : keeps (ret a).
Proof. intros env st. exists []. simpl. rewrite app_nil_r. destruct st; reflexivity. Qed.

Lemma keeps_raise A e : keeps (@raise A e).
Proof. intros env st. exists []. simpl. rewrite app_nil_r. destruct st; reflexivity. Qed.

Lemma keeps_gets A (f : St -> A) : keeps (gets f).
Proof. intros env st. exists []. simpl. rewrite app_nil_r. destruct st; reflexivity. Qed.

Lemma keeps_asks A (f : Env -> list event -> A) : keeps (asks f).
Proof. intros env st. exists []. simpl. rewrite app_nil_r. destruct st; reflexivity. Qed.

Lemma keeps_emit ev : keeps (emit ev).
Proof. intros env st. exists [ev]. reflexivity. Qed.

Lemma keeps_spawn a i : keeps (spawn a i).
Proof. intros env st. eexists. reflexivity. Qed.

Lemma keeps_bind A B (m : M A) (k : A -> M B) :
  keeps m -> (forall a, keeps (k a)) -> keeps (bind m k).
Proof.
  intros Hm Hk env st. unfold bind. destruct (Hm env st) as [d1 H1].
  destruct (m env st) as [[a|e] s1]; simpl in *; subst s1.
  - destruct (Hk a env (set_trace (app (trace st) d1) st)) as [d2 H2].
    exists (app d1 d2). rewrite H2, app_assoc.
    reflexivity.
  - exists d1. reflexivity.
Qed.

Lemma keeps_try_except A (m : M A) c h :
  keeps m -> (forall e, keeps (h e)) -> keeps (try_except m c h).
Proof.
  intros Hm Hh env st. unfold try_except. destruct (Hm env st) as [d1 H1].
  destruct (m env st) as [[a|e] s1]; simpl in *; subst s1.
  - exists d1. reflexivity.
  - destruct (c e).
    + destruct (Hh e env (set_trace (app (trace st) d1) st)) as [d2 H2].
      exists (app d1 d2). rewrite H2, app_assoc.
      reflexivity.
    + exists d1. reflexivity.
Qed.

Lemma keeps_try_finally A (m : M A) f :
  keeps m -> keeps f -> keeps (try_finally m f).
Proof.
  intros Hm Hf env st. unfold try_finally. destruct (Hm env st) as [d1 H1].
  destruct (m env st) as [r s1]; simpl in *; subst s1.
  destruct (Hf env (set_trace (app (trace st) d1) st)) as [d2 H2].
  destruct (f env _) as [[]]; simpl in *; subst;
  exists (app d1 d2); rewrite app_assoc; reflexivity.
Qed.

Create HintDb keepsdb.
#[local] Hint Resolve keeps_ret keeps_raise keeps_gets keeps_asks keeps_emit
  keeps_spawn : keepsdb.

Ltac keeps_auto :=
  repeat (first
    [ solve [eauto with keepsdb]
    | apply keeps_bind; [|intro]
    | apply keeps_try_except; [|intro]
    | apply keeps_try_finally
    | match goal with
      | |- keeps (match ?x with _ => _ end) => destruct x
      | |- keeps (if ?b then _ else _) => destruct b
      end ]).

Lemma keeps_check_call a : keeps (check_call a).
Proof. unfold check_call. keeps_auto. Qed.
#[local] Hint Resolve keeps_check_call : keepsdb.

Lemma keeps_exit_gracefully msg e : keeps (exit_gracefully msg e).
Proof.
  unfold exit_gracefully, write_stderr, log, sys_exit, os_path_isdir,
    shutil_rmtree, getattr_output.
  keeps_auto.
Qed.
#[local] Hint Resolve keeps_exit_gracefully : keepsdb.

Lemma keeps_safe_check_call c m : keeps (safe_check_call c m).
Proof. unfold safe_check_call. keeps_auto. Qed.
#[local] Hint Resolve keeps_safe_check_call : keepsdb.

Ltac crunch_cmds :=
  repeat (match goal with
          | |- context [run_cmd ?env ?t ?a ?i] =>
              let H := fresh "Hr" in
              destruct (run_cmd env t a i) as [?rc ?out|] eqn:H; simpl
          | |- context [Z.eqb ?rc 0] =>
              let H := fresh "Hz" in destruct (Z.eqb rc 0) eqn:H; simpl
          end).

Ltac saff_build :=
  repeat first
    [ apply saff_done
    | eapply saff_fail; simpl;
      repeat match goal with H : (?r =? 0)%Z = _ |- context [(?r =? 0)%Z] => rewrite H end;
      reflexivity
    | eapply saff_ok; [simpl;
      repeat match goal with H : (?r =? 0)%Z = _ |- context [(?r =? 0)%Z] => rewrite H end;
      reflexivity|] ].

Lemma sdexport_copy_teardown_shape :
  teardown_shape SDExport.copy_teardown
    (fun st => teardown_argvs (mountpoint st) (encrypted_device st) (tmpdir st)).
Proof.
  intros env st.
  unfold SDExport.copy_teardown, check_call, spawn, bind, ret, raise, gets, sys_exit.
  simpl. crunch_cmds;
  (eexists; eexists; split;
   [ rewrite <- ?app_assoc; reflexivity | split; [ saff_build | reflexivity ] ]).
Qed.

Lemma try_finally_shape A (m : M A) (fin : M unit) steps env st :
  keeps m -> teardown_shape fin steps ->
  (forall t s, steps (set_trace t s) = steps s) ->
  exists d1 d2 e,
    snd (m env st) = set_trace (app (trace st) d1) st /\
    snd (try_finally m fin env st) = set_trace (app (trace st) (app d1 d2)) st /\
    stops_at_first_failure (SystemExit 0) (steps st) d2 e /\
    fst (try_finally m fin env st) = Exc e.
Proof.
  intros Hm Hf Hs. destruct (Hm env st) as [d1 H1].
  destruct (Hf env (set_trace (app (trace st) d1) st)) as (d2 & e & H2 & H3 & H4).
  exists d1, d2, e. unfold try_finally.
  destruct (m env st) as [r s1]. cbn [snd] in H1. subst s1.
  destruct (fin env _) as [r2 s2]. cbn [fst snd] in *. subst.
  split; [reflexivity|]. split; [rewrite app_assoc; reflexivity|]. split; [rewrite <- (Hs (app (trace st) d1) st); exact H3|].
  reflexivity.
Qed.

Lemma keeps_sdexport_copy_try : keeps SDExport.copy_try.
Proof. unfold SDExport.copy_try, exit_gracefully_msg. keeps_auto. Qed.

Lemma app_inv_head_eq (t d d' : list event) : app t d = app t d' -> d = d'.
Proof. apply app_inv_head. Qed.


Lemma self_attr_run A n (f : St -> A) env st :
  USB.self_attr n f env st =
  (if existsb (String.eqb n) (unset st) then Exc AttributeError else Ok (f st), st).
Proof.
  unfold USB.self_attr, bind, gets, raise. destruct (existsb _ _); reflexivity.
Qed.


(* ------------------------------------------------------------------ *)
(** ** Claim C3 *)

(** C3: [SDExport.copy_submission], the one [__main__] runs, spawns in its
    [finally] block [sync], [umount], [luksClose] and [rm -rf] in that
    order, each only if all the earlier ones succeeded: the first failing
    step's exception leaves the block and no later step runs. That
    exception, or the [SystemExit(0)] at the end of the block, replaces the
    outcome of the [try] block, also after the copy failed and
    [ERROR_USB_WRITE] was written. In a whole [__main__] run where [mkdir]
    on the volume fails and [sync] then fails, the process exits 1 after
    [ERROR_USB_WRITE] and a traceback, and never spawns [umount],
    [luksClose] or [rm]. [USBActionMixin.copy_submission], on the object
    [USBExportAction.run] calls it on, spawns [sync] and then raises
    [AttributeError] reading [self.mountpoint]. *)
Theorem copy_submission_teardown_stops_at_first_failure :
  (forall env st,
   exists d1 d2 e,
     snd (SDExport.copy_submission env st)
       = set_trace (app (trace st) (app d1 d2)) st /\
     stops_at_first_failure (SystemExit 0)
       (teardown_argvs (mountpoint st) (encrypted_device st) (tmpdir st)) d2 e /\
     fst (SDExport.copy_submission env st) = Exc e /\
     (forall rc out,
        run_cmd env (trace st)
          ["mkdir"; PyStr.path_join (mountpoint st) (target_dirname st)] NoStdin
          = Ran rc out -> rc <> 0%Z ->
        stderr_of d1 = ["ERROR_USB_WRITE"; nl])) /\
  (fst (run_process (Main.__main__ Main.sdexport) Fixture.sd_write_and_sync_fail
          (Main.init_st Fixture.TMP Fixture.TARGET)) = 1%Z /\
   argvs (snd (run_process (Main.__main__ Main.sdexport) Fixture.sd_write_and_sync_fail
                 (Main.init_st Fixture.TMP Fixture.TARGET)))
     = [["sudo"; "cryptsetup"; "luksOpen"; "/dev/sda1"; "encrypted_volume"];
        ["sudo"; "mount"; "/dev/mapper/encrypted_volume"; "/media/usb"];
        ["sudo"; "chown"; "-R"; "user:user"; "/media/usb"];
        ["mkdir"; "/media/usb/" ++ Fixture.TARGET]; ["sync"]] /\
   stderr_of (snd (run_process (Main.__main__ Main.sdexport) Fixture.sd_write_and_sync_fail
                     (Main.init_st Fixture.TMP Fixture.TARGET)))
     = ["ERROR_USB_WRITE"; nl; traceback]) /\
  (fst (USB.copy_submission Fixture.TMP Fixture.TARGET Fixture.happy
          (USB.init_st Fixture.TMP)) = Exc AttributeError /\
   argvs (trace (snd (USB.copy_submission Fixture.TMP Fixture.TARGET Fixture.happy
                        (USB.init_st Fixture.TMP)))) = [["sync"]]).
Proof.
  split; [|split; vm_compute; repeat split; reflexivity].
  intros env st.
  destruct (try_finally_shape _ SDExport.copy_try SDExport.copy_teardown _ env st
              keeps_sdexport_copy_try sdexport_copy_teardown_shape (fun _ _ => eq_refl))
    as (d1 & d2 & e & H1 & H2 & H3 & H4).
  exists d1, d2, e. split; [exact H2|]. split; [exact H3|]. split; [exact H4|].
  intros rc out Hrun Hrc. apply (f_equal trace) in H1.
  revert H1. unfold SDExport.copy_try, check_call, spawn, exit_gracefully_msg,
    exit_gracefully, write_stderr, log, sys_exit, try_except, bind, ret, raise,
    gets, emit.
  simpl. rewrite Hrun. apply Z.eqb_neq in Hrc. rewrite Hrc. simpl.
  rewrite <- !app_assoc. simpl. intro H1. apply app_inv_head_eq in H1.
  subst d1. reflexivity.
Qed.

(* ------------------------------------------------------------------ *)
(** ** Claim C9 *)


(** C5, counterexample: with no device the status is [USB_NOT_CONNECTED]. *)
Lemma check_usb_connected_no_device :
  fst (USB.check_usb_connected false Fixture.no_disk (USB.init_st Fixture.TMP))
    = Exc (SystemExit 0) /\
  stderr_of (trace (snd (USB.check_usb_connected false Fixture.no_disk
                           (USB.init_st Fixture.TMP))))
    = ["USB_NOT_CONNECTED"; nl].
Proof. vm_compute. split; reflexivity. Defined.

(** C5, witness. *)
Lemma check_usb_connected_status_witness :
  USB._get_connected_usbs Fixture.happy (USB.init_st Fixture.TMP)
    = (Ok ["/dev/sda"],
       snd (USB._get_connected_usbs Fixture.happy (USB.init_st Fixture.TMP))) /\
  exists d,
    trace (snd (USB.check_usb_connected true Fixture.happy (USB.init_st Fixture.TMP)))
      = app (trace (snd (USB._get_connected_usbs Fixture.happy
                           (USB.init_st Fixture.TMP)))) d /\
    device (snd (USB.check_usb_connected true Fixture.happy (USB.init_st Fixture.TMP)))
      = Some "/dev/sda" /\
    fst (USB.check_usb_connected true Fixture.happy (USB.init_st Fixture.TMP))
      = Exc (SystemExit 0) /\
    stderr_of d = ["USB_CONNECTED"; nl].
Proof.
  split; [vm_compute; reflexivity|].
  exact (check_usb_connected_status Fixture.happy (USB.init_st Fixture.TMP)
           (snd (USB._get_connected_usbs Fixture.happy (USB.init_st Fixture.TMP)))
           true ["/dev/sda"] ltac:(vm_compute; reflexivity)).
Defined.

(** C8, counterexample: two partitions give [USB_ENCRYPTION_NOT_SUPPORTED]. *)
Lemma set_extracted_device_name_two_partitions :
  fst (USB.set_extracted_device_name Fixture.two_partitions
         (set_device (Some "/dev/sda") (USB.init_st Fixture.TMP)))
    = Exc (SystemExit 0) /\
  device (snd (USB.set_extracted_device_name Fixture.two_partitions
                 (set_device (Some "/dev/sda") (USB.init_st Fixture.TMP))))
    = Some "/dev/sda" /\
  stderr_of (trace (snd (USB.set_extracted_device_name Fixture.two_partitions
                           (set_device (Some "/dev/sda") (USB.init_st Fixture.TMP)))))
    = ["USB_ENCRYPTION_NOT_SUPPORTED"; nl].
Proof. vm_compute. repeat split; reflexivity. Defined.

(** C8, witness. *)
Lemma set_extracted_device_name_cases_witness :
  device (set_device (Some "/dev/sda") (USB.init_st Fixture.TMP)) = Some "/dev/sda" /\
  run_cmd Fixture.happy (trace (set_device (Some "/dev/sda") (USB.init_st Fixture.TMP)))
    ["lsblk"; "-o"; "TYPE"; "--noheadings"; "/dev/sda"] NoStdin
    = Ran 0 ("disk" ++ nl ++ "part" ++ nl) /\
  (let n := PyStr.count "part" (PyStr.split_char "010"%char ("disk" ++ nl ++ "part" ++ nl)) in
   let st := set_device (Some "/dev/sda") (USB.init_st Fixture.TMP) in
   let r := fst (USB.set_extracted_device_name Fixture.happy st) in
   let st2 := snd (USB.set_extracted_device_name Fixture.happy st) in
   exists d, trace st2 = app (trace st) d /\
   (n = 0%nat -> r = Ok tt /\ device st2 = Some "/dev/sda" /\ stderr_of d = []) /\
   (n = 1%nat -> r = Ok tt /\ device st2 = Some ("/dev/sda" ++ "1") /\ stderr_of d = []) /\
   ((1 < n)%nat -> r = Exc (SystemExit 0) /\ device st2 = Some "/dev/sda" /\
                  stderr_of d = ["USB_ENCRYPTION_NOT_SUPPORTED"; nl])).
Proof.
  split; [reflexivity|]. split; [vm_compute; reflexivity|].
  exact (set_extracted_device_name_cases Fixture.happy
           (set_device (Some "/dev/sda") (USB.init_st Fixture.TMP)) "/dev/sda"
           ("disk" ++ nl ++ "part" ++ nl) eq_refl ltac:(vm_compute; reflexivity)).
Defined.


(* ------------------------------------------------------------------ *)
(** ** Claims C1, C2 and C6: runs of the code at concrete inputs *)

(** C1: a disk export does not always exit 0. In [__main__] with an
    [SDExport] object, when [mkdir] on the mounted volume fails and then
    [umount] fails, the [CalledProcessError] raised in the [finally] block
    replaces [SystemExit(0)]: the process exits 1 after [ERROR_USB_WRITE]
    and a traceback. [USBExportAction.run] exits 1 with only a traceback
    even when every command succeeds ([self.mountpoint] is unset when
    [mount_volume] reads it), and also when [luksDump] fails
    ([exit_gracefully] gets the enum member, whose write raises
    [TypeError]). *)
Theorem export_exit_code_one :
  fst (run_process (Main.__main__ Main.sdexport) Fixture.sd_write_and_umount_fail
         (Main.init_st Fixture.TMP Fixture.TARGET)) = 1%Z /\
  stderr_of (snd (run_process (Main.__main__ Main.sdexport)
                    Fixture.sd_write_and_umount_fail
                    (Main.init_st Fixture.TMP Fixture.TARGET)))
    = ["ERROR_USB_WRITE"; nl; traceback] /\
  argvs (snd (run_process (Main.__main__ Main.sdexport)
                Fixture.sd_write_and_umount_fail
                (Main.init_st Fixture.TMP Fixture.TARGET)))
    = [["sudo"; "cryptsetup"; "luksOpen"; "/dev/sda1"; "encrypted_volume"];
       ["sudo"; "mount"; "/dev/mapper/encrypted_volume"; "/media/usb"];
       ["sudo"; "chown"; "-R"; "user:user"; "/media/usb"];
       ["mkdir"; "/media/usb/" ++ Fixture.TARGET]; ["sync"];
       ["sudo"; "umount"; "/media/usb"]] /\
  fst (run_process (USB.export_run (PyStr "hunter2") Fixture.TMP Fixture.TARGET)
         Fixture.happy (USB.init_st Fixture.TMP)) = 1%Z /\
  stderr_of (snd (run_process (USB.export_run (PyStr "hunter2") Fixture.TMP Fixture.TARGET)
                    Fixture.happy (USB.init_st Fixture.TMP)))
    = [traceback] /\
  fst (run_process (USB.export_run (PyStr "hunter2") Fixture.TMP Fixture.TARGET)
         Fixture.not_luks (USB.init_st Fixture.TMP)) = 1%Z /\
  stderr_of (snd (run_process (USB.export_run (PyStr "hunter2") Fixture.TMP Fixture.TARGET)
                    Fixture.not_luks (USB.init_st Fixture.TMP)))
    = [traceback].
Proof. vm_compute. repeat split; reflexivity. Qed.

(** C2: an error after the container is unlocked can end the run with the
    mapping open and nothing torn down. In [__main__] with an [SDExport]
    object, when the mount point does not exist and [mkdir] fails, the
    [CalledProcessError] is not caught: the process exits 1 with a
    traceback, having spawned [luksOpen] and never [umount], [luksClose]
    or [rm -rf]. [USBExportAction.run] opens the mapping and then raises
    [AttributeError] in [mount_volume], with the same effect, even when
    every command succeeds. *)
Theorem disk_export_leaves_mapping_open :
  fst (run_process (Main.__main__ Main.sdexport) Fixture.sd_no_mountpoint
         (Main.init_st Fixture.TMP Fixture.TARGET)) = 1%Z /\
  stderr_of (snd (run_process (Main.__main__ Main.sdexport) Fixture.sd_no_mountpoint
                    (Main.init_st Fixture.TMP Fixture.TARGET))) = [traceback] /\
  argvs (snd (run_process (Main.__main__ Main.sdexport) Fixture.sd_no_mountpoint
                (Main.init_st Fixture.TMP Fixture.TARGET)))
    = [["sudo"; "cryptsetup"; "luksOpen"; "/dev/sda1"; "encrypted_volume"];
       ["sudo"; "mkdir"; "/media/usb"]] /\
  fst (run_process (USB.export_run (PyStr "hunter2") Fixture.TMP Fixture.TARGET)
         Fixture.happy (USB.init_st Fixture.TMP)) = 1%Z /\
  argvs (snd (run_process (USB.export_run (PyStr "hunter2") Fixture.TMP Fixture.TARGET)
                Fixture.happy (USB.init_st Fixture.TMP)))
    = [["lsblk"; "-o"; "NAME,TYPE"]; ["grep"; "disk"];
       ["cat"; "/sys/class/block/sda/removable"];
       ["lsblk"; "-o"; "TYPE"; "--noheadings"; "/dev/sda"];
       ["sudo"; "cryptsetup"; "luksDump"; "/dev/sda1"];
       ["sudo"; "cryptsetup"; "luksOpen"; "/dev/sda1"; Fixture.mapped]].
Proof. vm_compute. repeat split; reflexivity. Qed.

Lemma txt_eg s :
  existsb (String.eqb s) SDEXPORT_TEXT = true ->
  preserves text_ok (exit_gracefully_msg (PyStr s)).
Proof.
  intros H env st.
  unfold exit_gracefully_msg, exit_gracefully, write_stderr, log, sys_exit,
    bind, emit, raise, ret.
  simpl. eexists. split; [rewrite <- !app_assoc; reflexivity|].
  repeat apply Forall_cons; try apply Forall_nil; first [exact H | exact I | reflexivity].
Qed.

Lemma txt_check_call a : preserves text_ok (check_call a).
Proof. unfold check_call. pres_auto. Qed.

Lemma txt_popen_with_key a k : preserves text_ok (popen_with_key a k).
Proof. unfold popen_with_key, popen_communicate. pres_auto. Qed.

Ltac txt_auto :=
  repeat (first
    [ apply txt_eg; reflexivity
    | apply txt_check_call
    | apply txt_popen_with_key
    | apply pres_bind; [|intro]
    | apply pres_try_except; [|intro]
    | apply pres_try_finally
    | apply pres_ret | apply pres_raise | apply pres_gets | apply pres_asks
    | apply pres_os_listdir
    | apply pres_modify; reflexivity
    | apply pres_emit; exact I
    | match goal with
      | |- preserves _ (match ?x with _ => _ end) => destruct x
      | |- preserves _ (if ?b then _ else _) => destruct b
      end ]).

(** A failed notification passes [e] with [output = None]: only fixed
    text reaches stderr. *)
Lemma txt_sdexport_popup msg : preserves text_ok (SDExport.popup_message msg).
Proof.
  intros env st.
  unfold SDExport.popup_message, try_except, check_call, spawn, bind, ret, raise.
  simpl. destruct (run_cmd _ _ _ _) as [rc out|]; simpl.
  - destruct (Z.eqb rc 0); simpl.
    + eexists. split; [reflexivity|]. repeat constructor.
    + unfold exit_gracefully, write_stderr, log, sys_exit, os_path_isdir,
        shutil_rmtree, getattr_output, try_except, bind, ret, raise, emit,
        gets, asks.
      simpl. destruct (fs_isdir _ _ _); [destruct (fs_rmtree_ok _ _ _)|]; simpl;
      eexists; (split; [rewrite <- !app_assoc; reflexivity|]); repeat constructor.
  - eexists. split; [reflexivity|]. repeat constructor.
Qed.

Lemma txt_print_file f : preserves text_ok (SDPrint.print_file f).
Proof. unfold SDPrint.print_file. txt_auto. Qed.

Lemma txt_print_loop fp total fs n :
  preserves text_ok (SDPrint.print_loop fp total fs n).
Proof.
  revert n. induction fs as [|f fs IH]; intro n; simpl.
  - apply pres_ret.
  - apply pres_bind; [apply txt_print_file|intros _].
    apply pres_bind; [apply txt_sdexport_popup|intros _]. apply IH.
Qed.

Lemma txt_extract : preserves text_ok SDExport.extract_tarball.
Proof. unfold SDExport.extract_tarball. txt_auto. Qed.

Lemma txt_check_luks : preserves text_ok SDExport.check_luks_volume.
Proof. unfold SDExport.check_luks_volume. txt_auto. Qed.

Lemma txt_unlock k : preserves text_ok (SDExport.unlock_luks_volume k).
Proof. unfold SDExport.unlock_luks_volume, get_device, os_path_exists. txt_auto. Qed.

Lemma txt_mount : preserves text_ok SDExport.mount_volume.
Proof. unfold SDExport.mount_volume, os_path_exists. txt_auto. Qed.

Lemma txt_copy : preserves text_ok SDExport.copy_submission.
Proof.
  unfold SDExport.copy_submission, SDExport.copy_try, SDExport.copy_teardown,
    sys_exit.
  txt_auto.
Qed.

Lemma txt_print_all : preserves text_ok SDPrint.print_all_files.
Proof.
  unfold SDPrint.print_all_files.
  apply pres_bind; [apply pres_gets|intro].
  apply pres_bind; [apply pres_os_listdir|intro]. apply txt_print_loop.
Qed.

Lemma txt_print_test : preserves text_ok SDPrint.print_test_page.
Proof.
  unfold SDPrint.print_test_page.
  apply pres_bind; [apply txt_print_file|intros _]. apply txt_sdexport_popup.
Qed.

Lemma txt_main : preserves text_ok (Main.__main__ Main.sdexport).
Proof.
  unfold Main.__main__, Main.invoke, Main.read_metadata_file.
  apply pres_bind; [|intros _].
  { apply pres_bind; [apply pres_emit; exact I|intros _]. apply txt_extract. }
  apply pres_bind; [|intros _].
  { apply pres_try_except.
    - apply pres_bind; [apply pres_asks|intros [m|]];
        [apply pres_modify; reflexivity|apply pres_raise].
    - intros _. apply pres_bind; [apply pres_emit; exact I|intros _].
      apply txt_eg. reflexivity. }
  apply pres_bind; [apply pres_gets|intros [m|]]; [|apply pres_raise].
  destruct (Main.is_valid m).
  2:{ apply pres_bind; [apply pres_emit; exact I|intros _].
      apply txt_eg. reflexivity. }
  destruct (Main.py_eq _ "disk-check").
  { apply pres_bind; [apply pres_emit; exact I|intros _]. apply txt_check_luks. }
  destruct (Main.py_eq _ "disk").
  { apply pres_bind; [|intros _].
    { apply pres_bind; [apply pres_emit; exact I|intros _]. apply txt_unlock. }
    apply pres_bind; [|intros _].
    { apply pres_bind; [apply pres_emit; exact I|intros _]. apply txt_mount. }
    apply pres_bind; [apply pres_emit; exact I|intros _]. apply txt_copy. }
  destruct (Main.py_eq _ "printer-check").
  { apply pres_bind; [apply pres_emit; exact I|intros _]. apply pres_raise. }
  destruct (Main.py_eq _ "printer").
  { apply pres_bind; [|intros _].
    { apply pres_bind; [apply pres_emit; exact I|intros _]. apply pres_raise. }
    apply pres_bind; [apply pres_emit; exact I|intros _]. apply txt_print_all. }
  destruct (Main.py_eq _ "printer-test"); [|apply pres_ret].
  apply pres_bind; [|intros _].
  { apply pres_bind; [apply pres_emit; exact I|intros _]. apply pres_raise. }
  apply pres_bind; [apply pres_emit; exact I|intros _]. apply txt_print_test.
Qed.

Lemma text_ok_stderr d :
  Forall text_ok d -> Forall (fun s => In s SDEXPORT_TEXT) (stderr_of d).
Proof.
  induction 1 as [|ev d Hev _ IH]; [constructor|].
  destruct ev; simpl; try exact IH.
  constructor; [|exact IH].
  apply existsb_exists in Hev as [x [Hx Hs]]. apply String.eqb_eq in Hs.
  subst. exact Hx.
Qed.

(* ------------------------------------------------------------------ *)
(** ** Claim C4 *)

(** C4: in a [__main__] run with an [SDExport] object, whatever the
    machine answers, every string written to stderr is one of the fixed
    strings of [SDEXPORT_TEXT]: no output of a command reaches the
    channel. It does carry more than the single status token: when a
    teardown command fails after [ERROR_USB_WRITE], the traceback of the
    uncaught [CalledProcessError] follows the status. (The traceback is
    one fixed string here; Python's also names the failed command and its
    arguments.) *)
Theorem main_stderr_fixed_text :
  (forall env tmp tgt,
     Forall (fun s => In s SDEXPORT_TEXT)
       (stderr_of (snd (run_process (Main.__main__ Main.sdexport) env
                          (Main.init_st tmp tgt))))) /\
  stderr_of (snd (run_process (Main.__main__ Main.sdexport)
                    Fixture.sd_write_and_umount_fail
                    (Main.init_st Fixture.TMP Fixture.TARGET)))
    = ["ERROR_USB_WRITE"; nl; traceback].
Proof.
  split; [|vm_compute; reflexivity].
  intros env tmp tgt.
  destruct (txt_main env (Main.init_st tmp tgt)) as [d [Hd HF]].
  unfold run_process.
  destruct (Main.__main__ Main.sdexport env (Main.init_st tmp tgt)) as [[r|e] st1].
  - simpl in *. rewrite Hd. apply text_ok_stderr. exact HF.
  - simpl in Hd.
    assert (Hfin : Forall (fun s => In s SDEXPORT_TEXT)
                     (stderr_of (app (trace st1) [Stderr traceback]))).
    { rewrite Hd. unfold stderr_of. rewrite flat_map_app.
      apply Forall_app. split; [apply text_ok_stderr; exact HF|].
      constructor; [simpl; tauto|constructor]. }
    destruct e; simpl; try exact Hfin; rewrite Hd; apply text_ok_stderr; exact HF.
Qed.

(** C6: on a disk with one partition, a first [unlock_luks_volume] sets
    the device to [/dev/sda1] and the mapping to [luks-<UUID>]; a second
    one appends ["1"] again, runs [luksDump] on [/dev/sda11], and its
    failure ends in [TypeError] instead of the same mapped name. *)
Theorem usb_unlock_twice_resuffixes_device :
  fst ((USB.check_usb_connected false ;; USB.unlock_luks_volume (PyStr "hunter2"))
         Fixture.happy (USB.init_st Fixture.TMP)) = Ok tt /\
  device (snd ((USB.check_usb_connected false ;; USB.unlock_luks_volume (PyStr "hunter2"))
                 Fixture.happy (USB.init_st Fixture.TMP))) = Some "/dev/sda1" /\
  encrypted_device (snd ((USB.check_usb_connected false ;;
                          USB.unlock_luks_volume (PyStr "hunter2"))
                           Fixture.happy (USB.init_st Fixture.TMP))) = Fixture.mapped /\
  fst ((USB.check_usb_connected false ;; USB.unlock_luks_volume (PyStr "hunter2") ;;
        USB.unlock_luks_volume (PyStr "hunter2"))
         Fixture.happy (USB.init_st Fixture.TMP)) = Exc TypeError /\
  device (snd ((USB.check_usb_connected false ;; USB.unlock_luks_volume (PyStr "hunter2") ;;
                USB.unlock_luks_volume (PyStr "hunter2"))
                 Fixture.happy (USB.init_st Fixture.TMP))) = Some "/dev/sda11" /\
  spawned ["sudo"; "cryptsetup"; "luksDump"; "/dev/sda11"]
    (argvs (trace (snd ((USB.check_usb_connected false ;;
                         USB.unlock_luks_volume (PyStr "hunter2") ;;
                         USB.unlock_luks_volume (PyStr "hunter2"))
                          Fixture.happy (USB.init_st Fixture.TMP))))) = true.
Proof. vm_compute. repeat split; reflexivity. Qed.

(* ------------------------------------------------------------------ *)
(** * Further properties of the code around the claims *)

Lemma eg_falsy_run s e env st :
  truthy e = false ->
  exit_gracefully (PyStr s) e env st =
  (Exc (SystemExit 0), set_trace (app (trace st) (eg_prefix s)) st).
Proof.
  intro He. unfold exit_gracefully, write_stderr, log, sys_exit,
    bind, emit, raise, ret. rewrite He. simpl. rewrite <- !app_assoc. reflexivity.
Qed.

Lemma eg_msg_run s env st :
  exit_gracefully_msg (PyStr s) env st =
  (Exc (SystemExit 0), set_trace (app (trace st) (eg_prefix s)) st).
Proof. apply eg_falsy_run. reflexivity. Qed.

Lemma stderr_eg_prefix s : stderr_of (eg_prefix s) = [s; nl].
Proof. reflexivity. Qed.

Lemma reported_incl S S' A (r : res A) d :
  incl S S' -> reported S r d -> reported S' r d.
Proof.
  intros Hi [[Hr [s [Hs Hd]]]|H]; [left|right; exact H].
  split; [exact Hr|]. exists s. auto.
Qed.

Lemma reports_eg s : reports [s] (exit_gracefully_msg (PyStr s)).
Proof.
  intros env st. rewrite eg_msg_run. exists (eg_prefix s). split; [reflexivity|].
  left. split; [reflexivity|]. exists s. simpl. auto.
Qed.

Lemma reports_incl S S' A (m : M A) : incl S S' -> reports S m -> reports S' m.
Proof.
  intros Hi Hm env st. destruct (Hm env st) as [d [Hd Hr]].
  exists d. split; [exact Hd|]. eapply reported_incl; eauto.
Qed.

Lemma reports_qor S A (m : M A) : reports S m -> quiet_or_reports S m.
Proof.
  intros Hm env st. destruct (Hm env st) as [d [Hd Hr]]. exists d. auto.
Qed.

Lemma qor_incl S S' A (m : M A) :
  incl S S' -> quiet_or_reports S m -> quiet_or_reports S' m.
Proof.
  intros Hi Hm env st. destruct (Hm env st) as [d [Hd [Hq|Hr]]];
  exists d; split; auto. right. eapply reported_incl; eauto.
Qed.

Lemma reported_app_quiet S A (r : res A) d1 d2 :
  stderr_of d1 = [] -> reported S r d2 -> reported S r (app d1 d2).
Proof.
  intros H1 [[Hr [s [Hs Hd]]]|[e [Hr [Hu Hd]]]].
  - left. split; [exact Hr|]. exists s. split; [exact Hs|].
    rewrite stderr_of_app, H1, Hd. reflexivity.
  - right. exists e. rewrite stderr_of_app, H1, Hd. auto.
Qed.

Lemma reported_exc A B S e d :
  reported S (@Exc A e) d -> reported S (@Exc B e) d.
Proof.
  intros [[Hr Hs]|[e' [Hr Hu]]]; [left|right].
  - injection Hr as ->. auto.
  - injection Hr as ->. exists e'. auto.
Qed.

Lemma reports_bind S1 S2 A B (m : M A) (k : A -> M B) :
  quiet_or_reports S1 m -> (forall a, reports S2 (k a)) ->
  reports (app S1 S2) (bind m k).
Proof.
  intros Hm Hk env st. unfold bind.
  destruct (Hm env st) as [d1 [Hd1 H1]].
  destruct (m env st) as [[a|e] st1]; simpl in *.
  - destruct (Hk a env st1) as [d2 [Hd2 H2]].
    exists (app d1 d2). split; [rewrite Hd2, Hd1, app_assoc; reflexivity|].
    destruct H1 as [[a' [_ Hq]]|[[Hr _]|[e [Hr _]]]]; try discriminate.
    eapply reported_incl; [|apply reported_app_quiet; eauto].
    intros x Hx. apply in_or_app. auto.
  - exists d1. split; [exact Hd1|].
    destruct H1 as [[a' [Hr _]]|H1]; [discriminate|].
    eapply reported_incl; [|apply (reported_exc A); exact H1]. intros x Hx. apply in_or_app. auto.
Qed.

Lemma qor_bind S1 S2 A B (m : M A) (k : A -> M B) :
  quiet_or_reports S1 m -> (forall a, quiet_or_reports S2 (k a)) ->
  quiet_or_reports (app S1 S2) (bind m k).
Proof.
  intros Hm Hk env st. unfold bind.
  destruct (Hm env st) as [d1 [Hd1 H1]].
  destruct (m env st) as [[a|e] st1]; simpl in *.
  - destruct (Hk a env st1) as [d2 [Hd2 H2]].
    exists (app d1 d2). split; [rewrite Hd2, Hd1, app_assoc; reflexivity|].
    destruct H1 as [[a' [_ Hq]]|[[Hr _]|[e [Hr _]]]]; try discriminate.
    destruct H2 as [[b [Hb Hq2]]|H2].
    + left. exists b. rewrite stderr_of_app, Hq, Hq2. auto.
    + right. eapply reported_incl; [|apply reported_app_quiet; eauto].
      intros x Hx. apply in_or_app. auto.
  - exists d1. split; [exact Hd1|].
    destruct H1 as [[a' [Hr _]]|H1]; [discriminate|].
    right. eapply reported_incl; [|apply (reported_exc A); exact H1]. intros x Hx. apply in_or_app. auto.
Qed.

Lemma qor_ret S A (a : A) : quiet_or_reports S (ret a).
Proof. intros env st. exists []. split; [simpl; rewrite app_nil_r; reflexivity|]. left. eexists; split; reflexivity. Qed.

Lemma qor_raise S A e : unexpected e = true -> quiet_or_reports S (@raise A e).
Proof.
  intros He env st. exists []. split; [simpl; rewrite app_nil_r; reflexivity|]. right. right. eexists; repeat split; eauto.
Qed.

Lemma qor_gets S A (f : St -> A) : quiet_or_reports S (gets f).
Proof. intros env st. exists []. split; [simpl; rewrite app_nil_r; reflexivity|]. left. eexists; split; reflexivity. Qed.

Lemma qor_asks S A (f : Env -> list event -> A) : quiet_or_reports S (asks f).
Proof. intros env st. exists []. split; [simpl; rewrite app_nil_r; reflexivity|]. left. eexists; split; reflexivity. Qed.

Lemma qor_modify S f : (forall s, trace (f s) = trace s) -> quiet_or_reports S (modify f).
Proof. intros Hf env st. exists []. split; [simpl; rewrite Hf, app_nil_r; reflexivity|]. left. eexists; split; reflexivity. Qed.

Lemma qor_spawn S a i : quiet_or_reports S (spawn a i).
Proof. intros env st. eexists. split; [reflexivity|]. left. eexists; split; reflexivity. Qed.

Lemma qor_try_cpe S A (m : M A) h :
  quiet_or_reports S m -> quiet_or_reports S (try_except m is_CPE h).
Proof.
  intros Hm env st. unfold try_except. destruct (Hm env st) as [d [Hd H]].
  destruct (m env st) as [[a|e] st1]; simpl in *; [exists d; auto|].
  destruct H as [[a [Ha _]]|[[Hr Hs]|[e' [Hr [Hu Hs]]]]]; [discriminate| |].
  - injection Hr as ->. simpl. exists d. split; [exact Hd|]. right. left. auto.
  - injection Hr as ->. destruct e'; try discriminate; simpl;
    exists d; split; auto; right; right; eexists; eauto.
Qed.

Lemma reports_try_cpe S A (m : M A) h :
  reports S m -> reports S (try_except m is_CPE h).
Proof.
  intros Hm env st. unfold try_except. destruct (Hm env st) as [d [Hd H]].
  destruct (m env st) as [[a|e] st1]; simpl in *; [exists d; auto|].
  destruct H as [[Hr Hs]|[e' [Hr [Hu Hs]]]].
  - injection Hr as ->. simpl. exists d. split; [exact Hd|]. left. auto.
  - injection Hr as ->. destruct e'; try discriminate; simpl;
    exists d; split; auto; right; eexists; eauto.
Qed.

Lemma qor_get_device S : quiet_or_reports S get_device.
Proof.
  intros env st. unfold get_device, bind, gets. simpl.
  destruct (device st); simpl; exists []; (split; [rewrite app_nil_r; reflexivity|]); [left; eexists; split; reflexivity|right; right; eexists; repeat split; eauto].
Qed.

Lemma qor_safe_check_call c s : quiet_or_reports [s] (safe_check_call c (PyStr s)).
Proof.
  intros env st. unfold safe_check_call, check_call, spawn, try_except, bind, raise, ret.
  simpl. destruct (run_cmd env (trace st) c NoStdin) as [rc out|] eqn:Hr; simpl.
  - destruct (Z.eqb rc 0); simpl.
    + eexists. split; [reflexivity|]. left. eexists; split; reflexivity.
    + eexists. split; [rewrite <- !app_assoc; reflexivity|].
      right. left. split; [reflexivity|]. exists s. simpl. auto.
  - eexists. split; [reflexivity|]. right. right. eexists; repeat split; eauto.
Qed.

Lemma qor_first_word S x : quiet_or_reports S (USB.first_word x).
Proof.
  unfold USB.first_word. destruct (PyStr.str_split x);
  [apply qor_raise; reflexivity | apply qor_ret].
Qed.

Lemma qor_mapM S A B (f : A -> M B) l :
  (forall x, quiet_or_reports S (f x)) -> quiet_or_reports S (USB.mapM f l).
Proof.
  intro Hf. induction l as [|x l IH]; simpl; [apply qor_ret|].
  apply (qor_incl (app S (app S S))); [intros y Hy; repeat (apply in_app_or in Hy as [Hy|Hy]); auto|].
  apply qor_bind; [apply Hf|intro]. apply qor_bind; [apply IH|intro]. apply qor_ret.
Qed.

Lemma qor_list_disks : quiet_or_reports [] USB.list_disks.
Proof.
  unfold USB.list_disks.
  change (@nil string) with (app (@nil string) []).
  apply qor_bind; [apply qor_spawn|intros [rc out|]]; [|apply qor_raise; reflexivity].
  change (@nil string) with (app (@nil string) []).
  apply qor_bind; [apply qor_spawn|intros [rc' out'|]]; [|apply qor_raise; reflexivity].
  apply qor_mapM. intro. apply qor_first_word.
Qed.

Lemma qor_is_removable dev : quiet_or_reports [] (USB.is_removable dev).
Proof.
  intros env st. unfold USB.is_removable, try_except, check_output, spawn, bind, ret, raise.
  cbn -[PyStr.py_int PyStr.strip].
  destruct (run_cmd _ _ _ _) as [rc out|];
  [destruct (Z.eqb rc 0); [destruct (PyStr.py_int (PyStr.strip out))|]|]; simpl;
  eexists; (split; [reflexivity|]);
  first [ left; eexists; split; reflexivity
        | right; right; eexists; repeat split; reflexivity ].
Qed.

Lemma qor_select_removable l : quiet_or_reports [] (USB.select_removable l).
Proof.
  induction l as [|x l IH]; simpl; [apply qor_ret|].
  change (@nil string) with (app (@nil string) []).
  apply qor_bind; [apply qor_is_removable|intro].
  change (@nil string) with (app (@nil string) []).
  apply qor_bind; [apply IH|intro]. apply qor_ret.
Qed.

Lemma qor_get_connected_usbs : quiet_or_reports [] USB._get_connected_usbs.
Proof.
  unfold USB._get_connected_usbs.
  change (@nil string) with (app (@nil string) []).
  apply qor_bind; [apply qor_try_cpe, qor_list_disks|intro].
  apply qor_select_removable.
Qed.

Lemma reports_check_usb_connected_true :
  reports ["USB_NOT_CONNECTED"; "USB_CONNECTED"; "ERROR_GENERIC"]
    (USB.check_usb_connected true).
Proof.
  unfold USB.check_usb_connected.
  change ["USB_NOT_CONNECTED"; "USB_CONNECTED"; "ERROR_GENERIC"]
    with (app [] ["USB_NOT_CONNECTED"; "USB_CONNECTED"; "ERROR_GENERIC"]).
  apply reports_bind; [apply qor_get_connected_usbs|intros [|d [|d' l]]].
  - eapply reports_incl; [|apply reports_eg]. intros x [<-|[]]; simpl; auto.
  - change ["USB_NOT_CONNECTED"; "USB_CONNECTED"; "ERROR_GENERIC"]
      with (app [] ["USB_NOT_CONNECTED"; "USB_CONNECTED"; "ERROR_GENERIC"]).
    apply reports_bind; [apply qor_modify; reflexivity|intro].
    eapply reports_incl; [|apply reports_eg]. intros x [<-|[]]; simpl; auto.
  - eapply reports_incl; [|apply reports_eg]. intros x [<-|[]]; simpl; auto.
Qed.

Lemma qor_check_usb_connected_false :
  quiet_or_reports ["USB_NOT_CONNECTED"; "ERROR_GENERIC"]
    (USB.check_usb_connected false).
Proof.
  unfold USB.check_usb_connected.
  change ["USB_NOT_CONNECTED"; "ERROR_GENERIC"]
    with (app [] ["USB_NOT_CONNECTED"; "ERROR_GENERIC"]).
  apply qor_bind; [apply qor_get_connected_usbs|intros [|d [|d' l]]].
  - apply reports_qor. eapply reports_incl; [|apply reports_eg]. intros x [<-|[]]; simpl; auto.
  - change ["USB_NOT_CONNECTED"; "ERROR_GENERIC"]
      with (app [] ["USB_NOT_CONNECTED"; "ERROR_GENERIC"]).
    apply qor_bind; [apply qor_modify; reflexivity|intro]. apply qor_ret.
  - apply reports_qor. eapply reports_incl; [|apply reports_eg]. intros x [<-|[]]; simpl; auto.
Qed.

Lemma qor_set_extracted_device_name :
  quiet_or_reports ["USB_ENCRYPTION_NOT_SUPPORTED"] USB.set_extracted_device_name.
Proof.
  intros env st.
  unfold USB.set_extracted_device_name, get_device, check_output, spawn,
    try_except, bind, ret, raise, gets, modify, value.
  cbn -[PyStr.count PyStr.split_char exit_gracefully_msg].
  destruct (device st) as [dev|]; cbn -[PyStr.count PyStr.split_char exit_gracefully_msg].
  2: { exists []. split; [rewrite app_nil_r; reflexivity|]. right. right. eexists; repeat split; reflexivity. }
  destruct (run_cmd _ _ _ _) as [rc out|]; cbn -[PyStr.count PyStr.split_char exit_gracefully_msg].
  2: { eexists. split; [reflexivity|]. right. right. eexists; repeat split; reflexivity. }
  destruct (Z.eqb rc 0); cbn -[PyStr.count PyStr.split_char exit_gracefully_msg].
  - destruct (PyStr.count "part" (PyStr.split_char "010"%char out)) as [|[|k]];
    cbn -[PyStr.count PyStr.split_char exit_gracefully_msg].
    1,2: eexists; split; [reflexivity|]; left; eexists; split; reflexivity.
    rewrite eg_msg_run. simpl. eexists. split; [rewrite <- !app_assoc; reflexivity|].
      right. left. split; [reflexivity|]. eexists. split; [left; reflexivity|reflexivity].
  - rewrite eg_msg_run. simpl. eexists. split; [rewrite <- !app_assoc; reflexivity|].
    right. left. split; [reflexivity|]. eexists. split; [left; reflexivity|reflexivity].
Qed.

Lemma reports_raise_unexpected S {A} e :
  unexpected e = true -> reports S (@raise A e).
Proof.
  intros He env st. exists []. unfold raise. simpl.
  split; [rewrite app_nil_r; reflexivity|]. right. eexists; repeat split; auto.
Qed.

Lemma reports_usb_disk_test :
  reports ["USB_NOT_CONNECTED"; "ERROR_GENERIC"; "USB_ENCRYPTION_NOT_SUPPORTED"]
          USBDiskTestAction.run.
Proof.
  unfold USBDiskTestAction.run, USB.check_luks_volume.
  apply (reports_bind ["USB_NOT_CONNECTED"; "ERROR_GENERIC"]
           ["USB_ENCRYPTION_NOT_SUPPORTED"]).
  - apply qor_check_usb_connected_false.
  - intro. change ["USB_ENCRYPTION_NOT_SUPPORTED"]
             with (app ["USB_ENCRYPTION_NOT_SUPPORTED"] (@nil string)).
    apply reports_bind; [apply qor_set_extracted_device_name|intro].
    intros env st. exists []. cbv [bind gets safe_check_call_no_self raise]. simpl.
    split; [rewrite app_nil_r; reflexivity|]. right. eexists; repeat split; auto.
Qed.

Lemma pres_mapM P A B (f : A -> M B) l :
  (forall x, preserves P (f x)) -> preserves P (USB.mapM f l).
Proof.
  intro Hf. induction l; simpl; [apply pres_ret|].
  apply pres_bind; [apply Hf|intro]. apply pres_bind; [apply IHl|intro]. apply pres_ret.
Qed.

Lemma pres_get_connected_usbs :
  preserves (spawn_ok (fun a => probe_command a = true)) USB._get_connected_usbs.
Proof.
  unfold USB._get_connected_usbs, USB.list_disks, exit_gracefully_msg.
  apply pres_bind; [|intro l].
  - apply pres_try_except; [|intro; pres_full].
    pres_full. apply pres_mapM. intro. unfold USB.first_word. pres_full.
  - induction l as [|x l IH]; simpl; [apply pres_ret|].
    apply pres_bind; [unfold USB.is_removable; pres_full|intro].
    apply pres_bind; [apply IH|intro]. apply pres_ret.
Qed.

Lemma pres_usb_test :
  preserves (spawn_ok (fun a => probe_command a = true)) USBTestAction.run.
Proof.
  unfold USBTestAction.run, USB.check_usb_connected, exit_gracefully_msg.
  apply pres_bind; [apply pres_get_connected_usbs|intro]. pres_full.
Qed.

Lemma pres_usb_disk_test :
  preserves (spawn_ok (fun a => probe_command a = true)) USBDiskTestAction.run.
Proof.
  unfold USBDiskTestAction.run, USB.check_usb_connected,
    USB.check_luks_volume, USB.set_extracted_device_name,
    exit_gracefully_msg.
  apply pres_bind; [apply pres_bind; [apply pres_get_connected_usbs|intro]; pres_full|intro].
  pres_full.
Qed.

(** export.py, [SDExport.check_usb_connected]: the method never returns
    normally. A missing [lsusb] raises [OSError]; otherwise exactly one status
    and a newline reach stderr before exit 0: [ERROR_USB_CONFIGURATION] for a
    failing [lsusb], else a status chosen by the number of output lines. *)
Theorem sdexport_check_usb_connected_status (env : Env) (st : St) (pci_bus_id : string) :
  exists d,
    snd (SDPreflight.check_usb_connected pci_bus_id env st)
      = set_trace (app (trace st) d) st /\
    match run_cmd env (trace st) ["lsusb"; "-s"; pci_bus_id ++ ":"] NoStdin with
    | NotFound =>
        fst (SDPreflight.check_usb_connected pci_bus_id env st) = Exc OSError /\
        stderr_of d = []
    | Ran rc out =>
        fst (SDPreflight.check_usb_connected pci_bus_id env st) = Exc (SystemExit 0) /\
        stderr_of d =
          [if negb (Z.eqb rc 0) then "ERROR_USB_CONFIGURATION"
           else match length (PyStr.split_char "010"%char (SDPreflight.rstrip out)) with
                | 1 => "USB_NOT_CONNECTED"
                | 2 => "USB_CONNECTED"
                | _ => "ERROR_USB_CHECK"
                end; nl]
    end.
Proof.
  unfold SDPreflight.check_usb_connected, try_except, check_output, spawn, bind, ret, raise.
  cbn -[exit_gracefully_msg PyStr.split_char SDPreflight.rstrip].
  destruct (run_cmd _ _ _ _) as [rc out|].
  - destruct (Z.eqb rc 0); cbn -[exit_gracefully_msg PyStr.split_char SDPreflight.rstrip].
    + destruct (length (PyStr.split_char "010"%char (SDPreflight.rstrip out))) as [|[|[|n]]];
      cbn -[exit_gracefully_msg PyStr.split_char SDPreflight.rstrip];
      rewrite eg_msg_run; eexists; (split; [rewrite set_trace_twice, trace_set_trace, <- app_assoc; reflexivity|]); split; reflexivity.
    + rewrite eg_msg_run. eexists. split; [rewrite set_trace_twice, trace_set_trace, <- app_assoc; reflexivity|]. split; reflexivity.
  - eexists. split; [reflexivity|]. split; reflexivity.
Qed.

(** export.py, [SDExport.check_luks_volume]: every run ends in exit 0
    after exactly one of [USB_ENCRYPTED] and [USB_NO_SUPPORTED_ENCRYPTION], or
    in an uncaught exception with nothing on stderr. *)
Theorem sdexport_check_luks_volume_reports :
  reports ["USB_ENCRYPTED"; "USB_NO_SUPPORTED_ENCRYPTION"] SDExport.check_luks_volume.
Proof.
  intros env st.
  unfold SDExport.check_luks_volume, try_except, check_call, spawn, bind, ret, raise.
  cbn -[exit_gracefully_msg].
  destruct (run_cmd _ _ _ _) as [rc out|].
  - destruct (Z.eqb rc 0); cbn -[exit_gracefully_msg]; rewrite eg_msg_run;
    eexists; (split; [rewrite set_trace_twice, trace_set_trace, <- app_assoc; reflexivity|]); left; split; try reflexivity;
    (eexists; split; [|reflexivity]; simpl; auto).
  - eexists. split; [reflexivity|]. right. eexists; repeat split; reflexivity.
Qed.

(** utils.py, [safe_check_call]: the command is spawned once. Success
    returns normally. A missing executable raises [OSError]. A non-zero exit
    status writes the message and a newline to stderr and exits 0; since
    [check_call] captures nothing, [ex.output] is [None], so no temporary
    directory is deleted and no command output is written. *)
Theorem safe_check_call_outcome (env : Env) (st : St) (command : list string)
  (msg : string) :
  let r := run_cmd env (trace st) command NoStdin in
  let t1 := app (trace st) [Spawn command None NoStdin r] in
  safe_check_call command (PyStr msg) env st =
  match r with
  | NotFound => (Exc OSError, set_trace t1 st)
  | Ran rc _ =>
      if Z.eqb rc 0 then (Ok tt, set_trace t1 st)
      else (Exc (SystemExit 0), set_trace (app t1 (eg_prefix msg)) st)
  end.
Proof.
  cbv zeta.
  unfold safe_check_call, try_except, check_call, spawn, bind, ret, raise.
  destruct (run_cmd _ _ _ _) as [rc out|]; [|reflexivity].
  destruct (Z.eqb rc 0); [reflexivity|].
  simpl. rewrite eg_falsy_run by reflexivity.
  rewrite set_trace_twice, trace_set_trace. reflexivity.
Qed.

(** export.py, [SDExport.popup_message]: when [notify-send] exits non-zero,
    the error message is written, the temporary directory is deleted if it is
    one, and writing [e.output] ([None]) raises [TypeError]. Only a failed
    deletion turns this into ['<unknown exception>'] on stderr and exit 0. *)
Theorem sdexport_popup_message_failure (env : Env) (st : St) (msg : string)
  (rc : Z) (out : string)
  (Hrun : run_cmd env (trace st) (notify_send msg) NoStdin = Ran rc out)
  (Hrc : rc <> 0%Z) :
  let t1 := app (trace st)
              (Spawn (notify_send msg) None NoStdin (Ran rc out)
                 :: eg_prefix "Error sending notification:") in
  let isd := fs_isdir env t1 (tmpdir st) in
  SDExport.popup_message msg env st =
  if isd && negb (fs_rmtree_ok env t1 (tmpdir st)) then
    (Exc (SystemExit 0),
     set_trace (app t1 [Stderr "<unknown exception>"; Stderr nl]) st)
  else
    (Exc TypeError,
     set_trace (app t1 (app (if isd then [Rmtree (tmpdir st)] else [])
                            [Log "None"])) st).
Proof.
  cbv zeta.
  unfold SDExport.popup_message, try_except, check_call, spawn, bind, ret, raise.
  rewrite Hrun. apply Z.eqb_neq in Hrc. rewrite Hrc. simpl.
  cbv [exit_gracefully write_stderr log sys_exit emit bind ret raise try_except
       gets os_path_isdir asks shutil_rmtree getattr_output truthy py_str
       is_Exception].
  rewrite ?set_trace_twice, ?trace_set_trace. unfold eg_prefix.
  rewrite <- ?app_assoc. simpl.
  destruct (fs_isdir _ _ _); simpl.
  - destruct (fs_rmtree_ok _ _ _); simpl;
    rewrite ?set_trace_twice, ?trace_set_trace, <- ?app_assoc; reflexivity.
  - rewrite ?set_trace_twice, ?trace_set_trace, <- ?app_assoc; reflexivity.
Qed.

Lemma last_cons_default A (x d : A) l : last (x :: l) d = last l x.
Proof.
  revert x d. induction l as [|y l IH]; intros x d; [reflexivity|].
  change (last (x :: y :: l) d) with (last (y :: l) d).
  rewrite !IH. reflexivity.
Qed.

Lemma find_usb_uri_last p l :
  SDPrinterSetup.find_usb_uri p l = last (filter (PyStr.contains "usb://") l) p.
Proof.
  revert p. induction l as [|x l IH]; intro p; [reflexivity|].
  simpl. rewrite IH. destruct (PyStr.contains "usb://" x); [|reflexivity].
  symmetry. apply last_cons_default.
Qed.

Ltac tr_close :=
  try rewrite eg_msg_run; eexists; split;
  [rewrite ?set_trace_twice, ?trace_set_trace, <- ?app_assoc; reflexivity|].

Ltac rep_status :=
  right; left; split; [reflexivity|]; eexists; split; [|reflexivity]; simpl; auto 10.

(** export.py, [SDExport.get_printer_uri]: it returns without writing to
    stderr or reports one of its three statuses; it returns [u] exactly when
    [lpinfo -v] succeeds, [u] is the last word of its output containing
    [usb://], and [u] contains [Brother]. *)
Theorem sdexport_get_printer_uri :
  quiet_or_reports ["ERROR_PRINTER_URI"; "ERROR_PRINTER_NOT_FOUND";
                    "ERROR_PRINTER_NOT_SUPPORTED"] SDPrinterSetup.get_printer_uri /\
  (forall env st u,
     fst (SDPrinterSetup.get_printer_uri env st) = Ok u <->
     exists out,
       run_cmd env (trace st) ["sudo"; "lpinfo"; "-v"] NoStdin = Ran 0 out /\
       u = last (filter (PyStr.contains "usb://") (PyStr.split_ws out)) "" /\
       PyStr.contains "Brother" u = true).
Proof.
  split.
  - intros env st.
    unfold SDPrinterSetup.get_printer_uri, try_except, check_output, spawn, bind,
      ret, raise.
    destruct (run_cmd _ _ _ _) as [rc out|]; simpl.
    + destruct (Z.eqb rc 0); simpl.
      * destruct (String.eqb _ _); [|destruct (PyStr.contains _ _)]; simpl.
        -- tr_close. rep_status.
        -- tr_close. left. eexists; split; reflexivity.
        -- tr_close. rep_status.
      * tr_close. rep_status.
    + tr_close. right. right. eexists; repeat split; reflexivity.
  - intros env st u.
    unfold SDPrinterSetup.get_printer_uri, try_except, check_output, spawn, bind,
      ret, raise.
    destruct (run_cmd _ _ _ _) as [rc out|] eqn:Hr; simpl.
    + destruct (Z.eqb rc 0) eqn:Hrc; simpl.
      * rewrite find_usb_uri_last.
        destruct (String.eqb _ "") eqn:He; simpl.
        -- try rewrite eg_msg_run; simpl; split; [discriminate|].
           intros [out' [Hout [Hu Hb]]]. injection Hout as <- <-.
           apply String.eqb_eq in He. rewrite <- Hu in He. subst u.
           discriminate.
        -- destruct (PyStr.contains "Brother" _) eqn:Hb; simpl.
           ++ split.
              ** intro H. injection H as <-. exists out.
                 apply Z.eqb_eq in Hrc. subst rc. auto.
              ** intros [out' [Hout [Hu _]]]. injection Hout as _ <-. subst u.
                 reflexivity.
           ++ try rewrite eg_msg_run; simpl; split; [discriminate|].
              intros [out' [Hout [Hu Hb']]]. injection Hout as _ <-. subst u.
              congruence.
      * try rewrite eg_msg_run; simpl; split; [discriminate|].
        intros [out' [Hout _]]. injection Hout as -> _. discriminate.
    + split; [discriminate|]. intros [out' [Hout _]]. discriminate.
Qed.

Lemma print_file_raises f env st :
  exists e, fst (SDPrint.print_file f env st) = Exc e.
Proof.
  unfold SDPrint.print_file, try_except, check_call, spawn, bind, ret, raise.
  destruct (SDPrint.is_open_office_file f); simpl; [|eexists; reflexivity].
  destruct (run_cmd _ _ _ _) as [rc out|]; simpl; [|eexists; reflexivity].
  destruct (Z.eqb rc 0); simpl; [eexists; reflexivity|].
  try rewrite eg_msg_run. eexists; reflexivity.
Qed.

(** export.py, [SDExport.print_file]: [xpp] is never spawned and the method
    never returns normally. A non-office file raises [IndexError] with no
    effect; an office file spawns [unoconv] first, and its failure reports
    [ERROR_PRINT]. *)
Theorem sdexport_print_file_outcome (env : Env) (st : St) (f : string) :
  let conv := ["unoconv"; "-o"; PyStr.path_join (SDPrint.dirname f) (f ++ ".pdf"); f] in
  SDPrint.print_file f env st =
  if SDPrint.is_open_office_file f then
    let r := run_cmd env (trace st) conv NoStdin in
    let t1 := app (trace st) [Spawn conv None NoStdin r] in
    match r with
    | NotFound => (Exc OSError, set_trace t1 st)
    | Ran rc _ =>
        if Z.eqb rc 0 then (Exc IndexError, set_trace t1 st)
        else (Exc (SystemExit 0), set_trace (app t1 (eg_prefix "ERROR_PRINT")) st)
    end
  else (Exc IndexError, st).
Proof.
  cbv zeta.
  unfold SDPrint.print_file, try_except, check_call, spawn, bind, ret, raise.
  destruct (SDPrint.is_open_office_file f); [|reflexivity].
  destruct (run_cmd _ _ _ _) as [rc out|]; simpl; [|reflexivity].
  destruct (Z.eqb rc 0); simpl; [reflexivity|].
  rewrite eg_msg_run, set_trace_twice, trace_set_trace. reflexivity.
Qed.

(** export.py, [SDExport.print_all_files]: when [os.listdir] fails it
    raises [OSError] with no effect; an empty listing returns normally with
    no effect; otherwise the run is that of [print_file] on the first listed
    file, so no later file and no notification is processed. *)
Theorem sdexport_print_all_files_first_only (env : Env) (st : St) :
  let files_path := PyStr.path_join (tmpdir st) "export_data/" in
  SDPrint.print_all_files env st =
  match fs_listdir env (trace st) files_path with
  | None => (Exc OSError, st)
  | Some [] => (Ok tt, st)
  | Some (f :: _) => SDPrint.print_file (PyStr.path_join files_path f) env st
  end.
Proof.
  cbv zeta. unfold SDPrint.print_all_files, os_listdir, gets, asks.
  unfold bind at 1 2 3. simpl.
  destruct (fs_listdir _ _ _) as [[|f fs]|]; simpl; try reflexivity.
  unfold bind at 1.
  destruct (print_file_raises (PyStr.path_join (PyStr.path_join (tmpdir st) "export_data/") f) env st) as [e He].
  destruct (SDPrint.print_file _ env st) as [r st1]. simpl in He. subst r.
  reflexivity.
Qed.

(** export.py, [SDExport.print_test_page]: it raises [IndexError] without
    spawning anything or changing the object. *)
Theorem sdexport_print_test_page_fails (env : Env) (st : St) :
  SDPrint.print_test_page env st = (Exc IndexError, st).
Proof. reflexivity. Qed.

(** export.py, [install_printer_ppd] then [setup_printer]: for a URI
    without [Brother] the [None] driver makes [setup_printer] raise
    [TypeError] before any command is spawned. *)
Theorem sdexport_install_setup_unsupported (env : Env) (st : St) (uri : string)
  (Hb : PyStr.contains "Brother" uri = false) :
  (ppd <- SDPrinterSetup.install_printer_ppd uri ;;
   SDPrinterSetup.setup_printer uri ppd) env st = (Exc TypeError, st).
Proof.
  unfold SDPrinterSetup.install_printer_ppd. rewrite Hb. reflexivity.
Qed.

Ltac leaf_k :=
  first
    [ exists 1%nat; split; [rewrite ?set_trace_twice, ?trace_set_trace, <- ?app_assoc; reflexivity|];
      split; [reflexivity|]
    | exists 2%nat; split; [rewrite ?set_trace_twice, ?trace_set_trace, <- ?app_assoc; reflexivity|];
      split; [reflexivity|]
    | exists 3%nat; split; [rewrite ?set_trace_twice, ?trace_set_trace, <- ?app_assoc; reflexivity|];
      split; [reflexivity|] ].

(** export.py, [SDExport.setup_printer] with a driver file: the spawned
    commands are a prefix of the three [lpadmin] commands; the call returns
    normally only after all three, with nothing on stderr, and otherwise ends
    with [ERROR_PRINTER_INSTALL] or an uncaught exception. *)
Theorem sdexport_setup_printer_steps (env : Env) (st : St) (uri ppd : string) :
  let cmds := [["sudo"; "lpadmin"; "-p"; SDPrint.PRINTER_NAME; "-v"; uri; "-P"; ppd];
               ["sudo"; "lpadmin"; "-p"; SDPrint.PRINTER_NAME; "-E"];
               ["sudo"; "lpadmin"; "-p"; SDPrint.PRINTER_NAME; "-u"; "allow:user"]] in
  let m := SDPrinterSetup.setup_printer uri (Some ppd) in
  exists d k,
    trace (snd (m env st)) = app (trace st) d /\
    argvs d = firstn k cmds /\
    ((fst (m env st) = Ok tt /\ k = 3%nat /\ stderr_of d = []) \/
     reported ["ERROR_PRINTER_INSTALL"] (fst (m env st)) d).
Proof.
  cbv zeta.
  unfold SDPrinterSetup.setup_printer, try_except, check_call, spawn, bind, ret, raise.
  simpl.
  repeat (destruct (run_cmd _ _ _ _) as [?rc ?out|]; simpl;
          try (destruct (Z.eqb _ 0); simpl)).
  all: try rewrite eg_msg_run.
  all: eexists; leaf_k.
  all: first [ left; repeat split; reflexivity
             | right; left; split; [reflexivity|]; eexists; split; [|reflexivity]; simpl; auto
             | right; right; eexists; repeat split; reflexivity ].
Qed.

(** export.py, [SDExport.install_printer_ppd] for a [Brother] URI: it
    spawns [ppdc] once and returns the driver file exactly when [ppdc]
    succeeds; on failure it reports [ERROR_PRINTER_DRIVER_UNAVAILBLE], which
    is not a member of [ExportStatus]. *)
Theorem sdexport_install_printer_ppd_brother (env : Env) (st : St) (uri : string)
  (Hb : PyStr.contains "Brother" uri = true) :
  let cmd := ["sudo"; "ppdc"; SDPrinterSetup.BRLASER_DRIVER; "-d";
              "/usr/share/cups/model/"] in
  let m := SDPrinterSetup.install_printer_ppd uri in
  (exists d,
     trace (snd (m env st)) = app (trace st) d /\ argvs d = [cmd] /\
     ((fst (m env st) = Ok (Some SDPrinterSetup.BRLASER_PPD) /\ stderr_of d = []) \/
      reported ["ERROR_PRINTER_DRIVER_UNAVAILBLE"] (fst (m env st)) d)) /\
  (fst (m env st) = Ok (Some SDPrinterSetup.BRLASER_PPD) <->
   exists out, run_cmd env (trace st) cmd NoStdin = Ran 0 out) /\
  ~ In "ERROR_PRINTER_DRIVER_UNAVAILBLE" Status.MEMBERS.
Proof.
  cbv zeta.
  unfold SDPrinterSetup.install_printer_ppd. rewrite Hb.
  unfold try_except, check_call, spawn, bind, ret, raise. simpl.
  split; [|split; [|simpl; intuition discriminate]].
  - destruct (run_cmd _ _ _ _) as [rc out|]; simpl;
      [destruct (Z.eqb rc 0) eqn:Hrc; simpl|].
    + eexists; split; [rewrite ?trace_set_trace; reflexivity|].
      split; [reflexivity|]. left; split; reflexivity.
    + try rewrite eg_msg_run; simpl.
      eexists; split; [rewrite ?set_trace_twice, ?trace_set_trace, <- ?app_assoc; reflexivity|].
      split; [reflexivity|]. right; left; split; [reflexivity|].
      eexists; split; [|reflexivity]; simpl; auto.
    + eexists; split; [rewrite ?trace_set_trace; reflexivity|].
      split; [reflexivity|]. right; right; eexists; repeat split; reflexivity.
  - destruct (run_cmd _ _ _ _) as [rc out|]; simpl;
      [destruct (Z.eqb rc 0) eqn:Hrc; simpl|].
    + apply Z.eqb_eq in Hrc. subst. split; [eauto|reflexivity].
    + try rewrite eg_msg_run; simpl. split; [discriminate|].
      intros [o Ho]. injection Ho as -> _. discriminate.
    + split; [discriminate|]. intros [o Ho]. discriminate.
Qed.

Lemma remove_attr_twice n l : remove_attr n (remove_attr n l) = remove_attr n l.
Proof.
  unfold remove_attr. induction l as [|x l IH]; [reflexivity|].
  simpl. destruct (String.eqb x n) eqn:E; simpl; [exact IH|].
  rewrite E. simpl. f_equal. exact IH.
Qed.

Lemma set_encrypted_device_twice a b s :
  set_encrypted_device a (set_encrypted_device b s) = set_encrypted_device a s.
Proof.
  destruct s. unfold set_encrypted_device. simpl. rewrite remove_attr_twice.
  reflexivity.
Qed.

(** usb/actions.py, the [luksDump] loop of [unlock_luks_volume]: when
    every [UUID] line has a second tab-separated field, the loop returns
    normally, spawns nothing, and the last [UUID] line names the mapping;
    without a [UUID] line the object is unchanged. *)
Theorem scan_luks_header_last_uuid (env : Env) (st : St) (lines : list string)
  (Hfields : forall line, In line lines ->
     PyStr.contains "UUID" (hd "" (PyStr.split_char "009"%char line)) = true ->
     (2 <= length (PyStr.split_char "009"%char line))%nat) :
  let is_uuid l := PyStr.contains "UUID" (hd "" (PyStr.split_char "009"%char l)) in
  USB.scan_luks_header lines env st =
  (Ok tt,
   match filter is_uuid lines with
   | [] => st
   | l :: _ =>
       set_encrypted_device
         ("luks-" ++ nth 1 (PyStr.split_char "009"%char (last (filter is_uuid lines) l)) "")
         st
   end).
Proof.
  cbv zeta. revert st.
  induction lines as [|line rest IH]; intro st; [reflexivity|].
  simpl. unfold bind at 1.
  assert (IH' := IH (fun l Hl => Hfields l (or_intror Hl))).
  destruct (PyStr.contains "UUID" (hd "" (PyStr.split_char "009"%char line))) eqn:Hu.
  - specialize (Hfields line (or_introl eq_refl) Hu).
    destruct (PyStr.split_char "009"%char line) as [|x [|uuid more]] eqn:Hs;
      simpl in Hfields; try lia.
    unfold modify. rewrite IH'.
    rewrite last_cons_default.
    destruct (filter _ rest) as [|l0 ls].
    + simpl. rewrite Hs. reflexivity.
    + rewrite set_encrypted_device_twice, !last_cons_default. reflexivity.
  - unfold ret. apply IH'.
Qed.

Lemma argvs_app d1 d2 : argvs (app d1 d2) = app (argvs d1) (argvs d2).
Proof. unfold argvs, argv_env. rewrite flat_map_app, map_app. reflexivity. Qed.

Lemma is_removable_ok env st dev b :
  fst (USB.is_removable dev env st) = Ok b ->
  exists d,
    snd (USB.is_removable dev env st) = set_trace (app (trace st) d) st /\
    argvs d = [["cat"; "/sys/class/block/" ++ dev ++ "/removable"]] /\
    stderr_of d = [].
Proof.
  unfold USB.is_removable, try_except, check_output, spawn, bind, ret, raise.
  destruct (run_cmd _ _ _ _) as [rc out|]; simpl; [|discriminate].
  destruct (Z.eqb rc 0); simpl.
  - destruct (PyStr.py_int _); simpl; [|discriminate].
    intros _. eexists; split; [reflexivity|]. split; reflexivity.
  - intros _. eexists; split; [reflexivity|]. split; reflexivity.
Qed.

(** usb/actions.py, the removable-device loop of [_get_connected_usbs]:
    when it returns normally it has spawned one [cat] of the [removable]
    attribute per device, in order, written nothing to stderr, and returned
    the selected devices prefixed with [/dev/], in their original order. *)
Theorem select_removable_result (env : Env) (st : St) (devs r : list string)
  (Hok : fst (USB.select_removable devs env st) = Ok r) :
  exists d bs,
    snd (USB.select_removable devs env st) = set_trace (app (trace st) d) st /\
    argvs d = map (fun dev => ["cat"; "/sys/class/block/" ++ dev ++ "/removable"]) devs /\
    stderr_of d = [] /\
    length bs = length devs /\
    r = flat_map (fun p : bool * string => if fst p then ["/dev/" ++ snd p] else []) (combine bs devs).
Proof.
  revert st r Hok. induction devs as [|dev devs IH]; intros st r Hok.
  - simpl in Hok. injection Hok as <-. exists [], (@nil bool).
    simpl. rewrite app_nil_r. destruct st; repeat split; reflexivity.
  - simpl in Hok |- *. unfold bind in Hok |- *.
    destruct (USB.is_removable dev env st) as [[b|e] st1] eqn:E1; [|discriminate].
    destruct (is_removable_ok env st dev b) as [d1 [Hs1 [Ha1 He1]]];
      [rewrite E1; reflexivity|].
    rewrite E1 in Hs1. simpl in Hs1. subst st1.
    destruct (USB.select_removable devs env _) as [[rs|e] st2] eqn:E2; [|discriminate].
    destruct (IH (set_trace (app (trace st) d1) st) rs) as [d2 [bs [Hs2 [Ha2 [He2 [Hl Hr]]]]]];
      [rewrite E2; reflexivity|].
    rewrite E2 in Hs2. simpl in Hs2 |- *. unfold ret in Hok |- *. simpl in Hok.
    injection Hok as <-.
    exists (app d1 d2), (b :: bs).
    rewrite Hs2, set_trace_twice. simpl. rewrite app_assoc.
    split; [reflexivity|].
    rewrite argvs_app, stderr_of_app, Ha1, Ha2, He1, He2.
    split; [reflexivity|]. split; [reflexivity|]. split; [simpl; congruence|].
    rewrite Hr. destruct b; reflexivity.
Qed.

(** usb/actions.py, [USBTestAction.run]: it never returns normally; it
    exits 0 after one of [USB_NOT_CONNECTED], [USB_CONNECTED] and
    [ERROR_GENERIC], or ends in an uncaught exception with nothing on stderr;
    it only spawns the probing commands. *)
Theorem usb_test_action_run :
  reports ["USB_NOT_CONNECTED"; "USB_CONNECTED"; "ERROR_GENERIC"] USBTestAction.run /\
  preserves (spawn_ok (fun a => probe_command a = true)) USBTestAction.run.
Proof. split; [apply reports_check_usb_connected_true|apply pres_usb_test]. Qed.

(** usb/actions.py, [USBDiskTestAction.run]: it never returns normally and
    never reports [USB_ENCRYPTED]: [check_luks_volume] calls
    [safe_check_call] without [self], which raises [TypeError]. Each run exits
    0 after one of [USB_NOT_CONNECTED], [ERROR_GENERIC] and
    [USB_ENCRYPTION_NOT_SUPPORTED], or ends in an uncaught exception with
    nothing on stderr; it only spawns [lsblk], [grep] and [cat], never
    [cryptsetup isLuks]. *)
Theorem usb_disk_test_action_run :
  reports ["USB_NOT_CONNECTED"; "ERROR_GENERIC"; "USB_ENCRYPTION_NOT_SUPPORTED"]
          USBDiskTestAction.run /\
  preserves (spawn_ok (fun a => probe_command a = true)) USBDiskTestAction.run.
Proof.
  split; [apply reports_usb_disk_test|apply pres_usb_disk_test].
Qed.

(** main.py, [__main__] on an [SDExport] object, after a successful
    extraction and metadata parse: [printer] and [printer-test] call
    [setup_printer] without its arguments and exit 1 with a traceback;
    [usb-test] and [disk-test] match no branch and exit 0 having done
    nothing. *)
Theorem main_sdexport_printer_and_preflight (env : Env) (tmp tgt : string)
  (m : Metadata)
  (Htar : tar_extract_ok env [Call "extract_tarball"] = true)
  (Hmd : read_metadata env [Call "extract_tarball"] = Some m) :
  (export_method m = PyStr "printer" \/ export_method m = PyStr "printer-test" ->
   run_process (Main.__main__ Main.sdexport) env (Main.init_st tmp tgt) =
   (1%Z, [Call "extract_tarball"; Call "setup_printer"; Stderr traceback])) /\
  (export_method m = PyStr "usb-test" \/ export_method m = PyStr "disk-test" ->
   run_process (Main.__main__ Main.sdexport) env (Main.init_st tmp tgt) =
   (0%Z, [Call "extract_tarball"])).
Proof.
  unfold run_process, Main.__main__, Main.sdexport, Main.invoke, Main.init_st.
  cbv [bind emit try_except gets asks modify raise ret Main.read_metadata_file
       SDExport.extract_tarball Main.extract_tarball Main.setup_printer].
  simpl. rewrite Htar. simpl. rewrite Hmd. simpl.
  unfold Main.is_valid, Main.py_in, Main.py_eq.
  split; intros [He|He]; rewrite He; reflexivity.
Qed.

Ltac run_all Hrun :=
  repeat match goal with
         | |- context [run_cmd ?env ?t ?a NoStdin] =>
             let o := fresh "o" in let Ho := fresh "Ho" in
             destruct (Hrun t a) as [o Ho]; rewrite Ho; simpl
         end.

(** Runs every command through [Hrun], reading the attributes through
    [self_attr_run] and [Hu]. *)
Ltac usb_run Hrun Hu :=
  repeat (cbn -[USB.self_attr String.eqb];
          first
            [ rewrite self_attr_run; cbn -[USB.self_attr String.eqb];
              rewrite ?Hu; cbn -[USB.self_attr String.eqb]
            | match goal with
              | |- context [run_cmd ?env ?t ?a NoStdin] =>
                  let o := fresh "o" in let Ho := fresh "Ho" in
                  destruct (Hrun t a) as [o Ho]; rewrite Ho
              end ]).

(** usb/actions.py and export.py, [copy_submission] when every command
    succeeds. [SDExport]'s version spawns the copy and the teardown
    commands in order, writes nothing to stderr, changes no attribute and
    exits 0. [USBActionMixin]'s version, on an object without a
    [mountpoint] (every [USBExportAction]), spawns only [sync] and raises
    [AttributeError]; on an object with both attributes, the notification
    raises [TypeError] without spawning [notify-send], the teardown
    commands run in order and the call exits 0. Neither writes to
    stderr. *)
Theorem copy_submission_success (env : Env) (st : St) (tmp tgt : string)
  (Hrun : forall t a, exists out, run_cmd env t a NoStdin = Ran 0 out) :
  let mp := mountpoint st in
  let ed := encrypted_device st in
  (existsb (String.eqb "mountpoint") (unset st) = true ->
   exists d,
     snd (USB.copy_submission tmp tgt env st) = set_trace (app (trace st) d) st /\
     fst (USB.copy_submission tmp tgt env st) = Exc AttributeError /\
     stderr_of d = [] /\
     argvs d = [["sync"]]) /\
  (unset st = [] ->
   exists d,
     snd (USB.copy_submission tmp tgt env st) = set_trace (app (trace st) d) st /\
     fst (USB.copy_submission tmp tgt env st) = Exc (SystemExit 0) /\
     stderr_of d = [] /\
     argvs d = [["mkdir"; PyStr.path_join mp tgt];
                ["cp"; "-r"; PyStr.path_join tmp "export_data/"; PyStr.path_join mp tgt];
                ["sync"]; ["sudo"; "umount"; mp]; ["sudo"; "cryptsetup"; "luksClose"; ed];
                ["rm"; "-rf"; tmp]]) /\
  (exists d,
     snd (SDExport.copy_submission env st) = set_trace (app (trace st) d) st /\
     fst (SDExport.copy_submission env st) = Exc (SystemExit 0) /\
     stderr_of d = [] /\
     argvs d = [["mkdir"; PyStr.path_join mp (target_dirname st)];
                ["cp"; "-r"; PyStr.path_join (tmpdir st) "export_data/";
                 PyStr.path_join mp (target_dirname st)];
                ["sync"]; ["sudo"; "umount"; mp]; ["sudo"; "cryptsetup"; "luksClose"; ed];
                ["rm"; "-rf"; tmpdir st]]).
Proof.
  cbv zeta. split; [|split].
  - intro Hm.
    unfold USB.copy_submission, try_finally, USB.copy_try, USB.copy_teardown,
      try_except, check_call, spawn, bind, ret, raise, gets, sys_exit.
    usb_run Hrun Hm.
    eexists. split; [rewrite ?set_trace_twice; simpl; rewrite <- ?app_assoc; reflexivity|].
    split; [reflexivity|]. split; reflexivity.
  - intro Hu.
    unfold USB.copy_submission, try_finally, USB.copy_try, USB.copy_teardown,
      popup_message, safe_check_call_no_self, try_except,
      check_call, spawn, bind, ret, raise, gets, sys_exit.
    usb_run Hrun Hu.
    eexists. split; [rewrite ?set_trace_twice; simpl; rewrite <- ?app_assoc; reflexivity|].
    split; [reflexivity|]. split; reflexivity.
  - unfold SDExport.copy_submission, try_finally, SDExport.copy_try,
      SDExport.copy_teardown, try_except, check_call, spawn, bind, ret,
      raise, gets, sys_exit.
    simpl. run_all Hrun.
    eexists. split; [rewrite ?set_trace_twice; simpl; rewrite <- ?app_assoc; reflexivity|].
    split; [reflexivity|]. split; reflexivity.
Qed.

(** export.py, [SDExport.unlock_luks_volume]: an existing
    [/dev/mapper/<name>] makes the call a no-op; otherwise [luksOpen] is
    spawned once with the key on stdin, and a non-zero exit status reports
    [USB_BAD_PASSPHRASE]. *)
Theorem sdexport_unlock_luks_volume_outcome (env : Env) (st : St) (key : string) :
  let ed := encrypted_device st in
  SDExport.unlock_luks_volume (PyStr key) env st =
  if fs_exists env (trace st) (PyStr.path_join "/dev/mapper/" ed) then (Ok tt, st)
  else match device st with
       | None => (Exc TypeError, st)
       | Some dev =>
           let argv := ["sudo"; "cryptsetup"; "luksOpen"; dev; ed] in
           let r := run_cmd env (trace st) argv (Input key) in
           let t1 := app (trace st) [Spawn argv None (Input key) r] in
           match r with
           | NotFound => (Exc OSError, set_trace t1 st)
           | Ran rc _ =>
               if Z.eqb rc 0 then (Ok tt, set_trace t1 st)
               else (Exc (SystemExit 0),
                     set_trace (app t1 (eg_prefix "USB_BAD_PASSPHRASE")) st)
           end
       end.
Proof.
  cbv zeta.
  unfold SDExport.unlock_luks_volume, gets, os_path_exists, asks, bind. simpl.
  destruct (fs_exists _ _ _); simpl; [reflexivity|].
  unfold get_device, gets, bind, raise, ret. simpl.
  destruct (device st) as [dev|]; [|reflexivity].
  unfold popen_with_key, popen_communicate, spawn, bind, ret, raise. simpl.
  destruct (run_cmd _ _ _ _) as [rc out|]; simpl; [|reflexivity].
  destruct (Z.eqb rc 0); simpl; [reflexivity|].
  rewrite eg_msg_run, set_trace_twice, trace_set_trace. reflexivity.
Qed.

Lemma lss_app s1 s2 d b :
  SDPrint.last_slash_split (s1 ++ s2) d b =
  let (d', b') := SDPrint.last_slash_split s1 d b in
  SDPrint.last_slash_split s2 d' b'.
Proof.
  revert d b. induction s1 as [|c s1 IH]; intros d b; [reflexivity|].
  simpl. destruct (Ascii.eqb c "/"); apply IH.
Qed.

Lemma str_app_assoc (x y z : string) : (x ++ y) ++ z = x ++ (y ++ z).
Proof. induction x as [|c x IH]; simpl; [reflexivity|]. rewrite IH. reflexivity. Qed.

Lemma contains_slash_cons c r :
  PyStr.contains "/" (String c r) = false ->
  Ascii.eqb c "/" = false /\ PyStr.contains "/" r = false.
Proof.
  intro H.
  change (String.prefix "/" (String c r) || PyStr.contains "/" r = false) in H.
  apply orb_false_iff in H. destruct H as [Hp H]. split; [|exact H].
  apply Ascii.eqb_neq. intros ->. assert (Ht : String.prefix "/" (String "/" r) = true) by (destruct r; reflexivity). congruence.
Qed.

Lemma str_app_nil_r (x : string) : x ++ "" = x.
Proof. induction x as [|c x IH]; simpl; [reflexivity|]. rewrite IH. reflexivity. Qed.

Lemma lss_noslash s d b :
  PyStr.contains "/" s = false -> SDPrint.last_slash_split s d b = (d, b ++ s).
Proof.
  revert b. induction s as [|c s IH]; intros b Hs.
  - simpl. rewrite str_app_nil_r. reflexivity.
  - destruct (contains_slash_cons c s Hs) as [Hc Hr].
    simpl. rewrite Hc, IH by exact Hr. rewrite str_app_assoc. reflexivity.
Qed.

Lemma lss_ends_slash a d b :
  a <> "" -> substring (String.length a - 1) 1 a = "/" ->
  snd (SDPrint.last_slash_split a d b) = "".
Proof.
  revert d b. induction a as [|c r IH]; intros d b Hne Hs; [congruence|].
  destruct r as [|c' r'].
  - simpl in Hs. injection Hs as ->. reflexivity.
  - replace (String.length (String c (String c' r')) - 1)
      with (S (String.length (String c' r') - 1)) in Hs by (simpl; lia).
    change (substring (S (String.length (String c' r') - 1)) 1 (String c (String c' r')))
      with (substring (String.length (String c' r') - 1) 1 (String c' r')) in Hs.
    change (SDPrint.last_slash_split (String c (String c' r')) d b)
      with (if Ascii.eqb c "/" then SDPrint.last_slash_split (String c' r') (d ++ b ++ "/") ""
            else SDPrint.last_slash_split (String c' r') d (b ++ String c "")).
    destruct (Ascii.eqb c "/"); apply IH; congruence.
Qed.

Lemma prefix_slash_false f :
  PyStr.contains "/" f = false -> String.prefix "/" f = false.
Proof.
  destruct f as [|c r]; [reflexivity|].
  intro H. change (String.prefix "/" (String c r) || PyStr.contains "/" r = false) in H.
  apply orb_false_iff in H. apply H.
Qed.

(** export.py, [os.path.basename] after [os.path.join] as used by
    [print_all_files]: a file name without [/] keeps its basename in any
    directory, so the office-format check ignores the directory. *)
Theorem basename_path_join (a f : string) (Hf : PyStr.contains "/" f = false) :
  SDPrint.basename (PyStr.path_join a f) = f /\
  SDPrint.is_open_office_file (PyStr.path_join a f) = SDPrint.is_open_office_file f.
Proof.
  assert (Hb : SDPrint.basename (PyStr.path_join a f) = f).
  { unfold PyStr.path_join. rewrite (prefix_slash_false f Hf).
    unfold SDPrint.basename.
    destruct (String.eqb a "") eqn:Ha.
    - rewrite lss_noslash by exact Hf. reflexivity.
    - apply String.eqb_neq in Ha.
      destruct (String.eqb (substring (String.length a - 1) 1 a) "/") eqn:Hs.
      + apply String.eqb_eq in Hs. rewrite lss_app.
        pose proof (lss_ends_slash a "" "" Ha Hs) as H0.
        destruct (SDPrint.last_slash_split a "" "") as [d' b']. simpl in H0. subst b'.
        rewrite lss_noslash by exact Hf. reflexivity.
      + rewrite lss_app.
        destruct (SDPrint.last_slash_split a "" "") as [d' b'].
        rewrite lss_app. simpl.
        rewrite lss_noslash by exact Hf. reflexivity. }
  split; [exact Hb|].
  unfold SDPrint.is_open_office_file at 1. rewrite Hb.
  unfold SDPrint.is_open_office_file, SDPrint.basename.
  rewrite lss_noslash by exact Hf. reflexivity.
Qed.


Lemma sdexport_popup_message_failure_witness :
  SDExport.popup_message "hi" Fixture.nothing_works MoreFixtures.st0 =
  (Exc TypeError,
   set_trace ([Spawn (notify_send "hi") None NoStdin (Ran 1 "")] ++
              eg_prefix "Error sending notification:" ++
              [Rmtree "/tmp/tmpx"; Log "None"]) MoreFixtures.st0).
Proof.
  rewrite (sdexport_popup_message_failure Fixture.nothing_works MoreFixtures.st0 "hi" 1 "").
  - reflexivity.
  - reflexivity.
  - lia.
Defined.

Lemma sdexport_install_setup_unsupported_witness :
  (ppd <- SDPrinterSetup.install_printer_ppd "usb://HP/LaserJet" ;;
   SDPrinterSetup.setup_printer "usb://HP/LaserJet" ppd)
    Fixture.nothing_works MoreFixtures.st0 = (Exc TypeError, MoreFixtures.st0).
Proof.
  apply sdexport_install_setup_unsupported. reflexivity.
Defined.

Lemma sdexport_install_printer_ppd_brother_witness :
  fst (SDPrinterSetup.install_printer_ppd "usb://Brother/HL-L2350DW"
         MoreFixtures.all_ok_env MoreFixtures.st0)
    = Ok (Some SDPrinterSetup.BRLASER_PPD) /\
  ~ In "ERROR_PRINTER_DRIVER_UNAVAILBLE" Status.MEMBERS.
Proof.
  destruct (sdexport_install_printer_ppd_brother MoreFixtures.all_ok_env
              MoreFixtures.st0 "usb://Brother/HL-L2350DW") as [_ [Hiff Hnot]].
  - reflexivity.
  - split; [|exact Hnot]. apply Hiff. eexists. reflexivity.
Defined.

Lemma scan_luks_header_last_uuid_witness :
  USB.scan_luks_header
    ["LUKS header information"; "UUID:" ++ String "009"%char "abc-123"; ""]
    Fixture.happy MoreFixtures.usb_st0 =
  (Ok tt, set_encrypted_device "luks-abc-123" MoreFixtures.usb_st0).
Proof.
  rewrite scan_luks_header_last_uuid.
  - reflexivity.
  - intros line Hin. simpl in Hin.
    destruct Hin as [<-|[<-|[<-|[]]]]; vm_compute; intros; first [discriminate | lia].
Defined.

(** Two disks, of which only [sda] is removable. *)
Lemma select_removable_result_witness :
  fst (USB.select_removable ["sda"; "sdb"] MoreFixtures.two_disks_env
         MoreFixtures.usb_st0) = Ok ["/dev/sda"] /\
  exists d bs,
    snd (USB.select_removable ["sda"; "sdb"] MoreFixtures.two_disks_env
           MoreFixtures.usb_st0)
      = set_trace (app (trace MoreFixtures.usb_st0) d) MoreFixtures.usb_st0 /\
    argvs d = [["cat"; "/sys/class/block/sda/removable"];
               ["cat"; "/sys/class/block/sdb/removable"]] /\
    stderr_of d = [] /\ length bs = 2%nat /\
    ["/dev/sda"] = flat_map (fun p : bool * string => if fst p then ["/dev/" ++ snd p] else [])
                      (combine bs ["sda"; "sdb"]).
Proof.
  split; [vm_compute; reflexivity|].
  apply (select_removable_result MoreFixtures.two_disks_env MoreFixtures.usb_st0
           ["sda"; "sdb"] ["/dev/sda"]).
  vm_compute. reflexivity.
Defined.

Lemma main_sdexport_printer_and_preflight_witness :
  run_process (Main.__main__ Main.sdexport) MoreFixtures.printer_env
    (Main.init_st "/tmp/tmpx" "sd-export-20200101-000000") =
  (1%Z, [Call "extract_tarball"; Call "setup_printer"; Stderr traceback]).
Proof.
  apply (main_sdexport_printer_and_preflight MoreFixtures.printer_env "/tmp/tmpx"
           "sd-export-20200101-000000" MoreFixtures.printer_metadata);
    [reflexivity|reflexivity|left; reflexivity].
Defined.

Lemma copy_submission_success_witness :
  exists d,
    snd (USB.copy_submission "/tmp/tmpx" "sd-export-20200101-000000"
           MoreFixtures.all_ok_env MoreFixtures.usb_st0)
      = set_trace d MoreFixtures.usb_st0 /\
    fst (USB.copy_submission "/tmp/tmpx" "sd-export-20200101-000000"
           MoreFixtures.all_ok_env MoreFixtures.usb_st0) = Exc AttributeError /\
    stderr_of d = [] /\ argvs d = [["sync"]].
Proof.
  destruct (copy_submission_success MoreFixtures.all_ok_env MoreFixtures.usb_st0
              "/tmp/tmpx" "sd-export-20200101-000000") as [H _].
  - intros t a. eexists. reflexivity.
  - destruct (H eq_refl) as [d [H1 [H2 [H3 H4]]]].
    exists d. split; [exact H1|]. split; [exact H2|]. split; [exact H3|exact H4].
Defined.

Lemma basename_path_join_witness :
  SDPrint.basename (PyStr.path_join "/tmp/tmpx/export_data/" "report.docx") = "report.docx" /\
  SDPrint.is_open_office_file (PyStr.path_join "/tmp/tmpx/export_data/" "report.docx")
    = SDPrint.is_open_office_file "report.docx".
Proof. apply basename_path_join. reflexivity. Defined.

Lemma mapM_first_word_fst env st lines :
  fst (USB.mapM USB.first_word lines env st) =
  if forallb (fun l => negb (match PyStr.str_split l with [] => true | _ => false end)) lines
  then Ok (map (fun l => hd "" (PyStr.str_split l)) lines)
  else Exc IndexError.
Proof.
  revert st. induction lines as [|l ls IH]; intro st; [reflexivity|].
  simpl. unfold bind at 1. unfold USB.first_word at 1.
  destruct (PyStr.str_split l) as [|w ws]; simpl; [reflexivity|].
  unfold bind. specialize (IH st).
  destruct (USB.mapM USB.first_word ls env st) as [[r|e] st3]; simpl in IH |- *.
  - destruct (forallb _ ls); [injection IH as <-; reflexivity|discriminate].
  - destruct (forallb _ ls); [discriminate|exact IH].
Qed.

Lemma all_chars_app p a b :
  PyStr.all_chars p (a ++ b) = PyStr.all_chars p a && PyStr.all_chars p b.
Proof.
  induction a as [|c a IH]; [reflexivity|]. simpl. rewrite IH. apply andb_assoc.
Qed.

(** The words of [s.split()] are non-empty and hold no whitespace. *)
Lemma split_on_aux_words ws cur s :
  PyStr.all_chars (fun c => negb (ws c)) cur = true ->
  Forall (fun w => w <> "" /\ PyStr.all_chars (fun c => negb (ws c)) w = true)
         (PyStr.split_on_aux ws cur s).
Proof.
  revert cur. induction s as [|x rest IH]; intros cur Hc; simpl.
  - destruct (String.eqb cur "") eqn:E; [constructor|].
    constructor; [|constructor]. split; [|exact Hc].
    intro H. subst. discriminate.
  - destruct (ws x) eqn:Hx.
    + apply Forall_app. split; [|apply IH; reflexivity].
      destruct (String.eqb cur "") eqn:E; [constructor|].
      constructor; [|constructor]. split; [|exact Hc].
      intro H. subst. discriminate.
    + apply IH. rewrite all_chars_app, Hc. simpl. rewrite Hx. reflexivity.
Qed.

Lemma hd_str_split_word l :
  PyStr.str_split l <> [] ->
  hd "" (PyStr.str_split l) <> "" /\
  PyStr.all_chars (fun c => negb (PyStr.is_space c)) (hd "" (PyStr.str_split l)) = true.
Proof.
  intro Hne. pose proof (split_on_aux_words PyStr.is_space "" l eq_refl) as H.
  unfold PyStr.str_split in *.
  destruct (PyStr.split_on_aux PyStr.is_space "" l) as [|w ws]; [congruence|].
  inversion H; subst. assumption.
Qed.

(** usb/actions.py, the [lsblk | grep disk] step of [_get_connected_usbs],
    whatever the exit statuses [rc1] and [rc2]: when no output line of
    [grep] is blank, it returns one name per line, the line's first word,
    which is non-empty and holds no whitespace; a blank line raises
    [IndexError]. *)
Theorem list_disks_first_words (env : Env) (st : St) (rc1 rc2 : Z) (out1 out2 : string)
  (H1 : run_cmd env (trace st) ["lsblk"; "-o"; "NAME,TYPE"] NoStdin = Ran rc1 out1)
  (H2 : run_cmd env (app (trace st) [Spawn ["lsblk"; "-o"; "NAME,TYPE"] None NoStdin
                                        (Ran rc1 out1)])
          ["grep"; "disk"] FromPipe = Ran rc2 out2) :
  (Forall (fun l => PyStr.str_split l <> []) (PyStr.readlines out2) ->
   exists names,
     fst (USB.list_disks env st) = Ok names /\
     names = map (fun l => hd "" (PyStr.str_split l)) (PyStr.readlines out2) /\
     length names = length (PyStr.readlines out2) /\
     Forall (fun w => w <> "" /\
                      PyStr.all_chars (fun c => negb (PyStr.is_space c)) w = true) names) /\
  (Exists (fun l => PyStr.str_split l = []) (PyStr.readlines out2) ->
   fst (USB.list_disks env st) = Exc IndexError).
Proof.
  assert (Hfst : fst (USB.list_disks env st) =
    if forallb (fun l => negb (match PyStr.str_split l with [] => true | _ => false end))
               (PyStr.readlines out2)
    then Ok (map (fun l => hd "" (PyStr.str_split l)) (PyStr.readlines out2))
    else Exc IndexError).
  { unfold USB.list_disks, spawn, bind. rewrite H1. simpl. rewrite H2. simpl.
    apply mapM_first_word_fst. }
  rewrite Hfst. split.
  - intro Hall.
    replace (forallb _ _) with true.
    + eexists. split; [reflexivity|]. split; [reflexivity|].
      split; [apply length_map|].
      apply Forall_map. eapply Forall_impl; [|exact Hall].
      intros l Hl. apply hd_str_split_word. exact Hl.
    + symmetry. apply forallb_forall. intros l Hin.
      rewrite Forall_forall in Hall. specialize (Hall l Hin).
      destruct (PyStr.str_split l); [congruence|reflexivity].
  - intro Hex. replace (forallb _ _) with false; [reflexivity|].
    symmetry. apply Bool.not_true_iff_false. intro Hf.
    rewrite forallb_forall in Hf. apply Exists_exists in Hex as [l [Hin Hl]].
    specialize (Hf l Hin). rewrite Hl in Hf. discriminate.
Qed.

Lemma list_disks_first_words_witness :
  fst (USB.list_disks Fixture.happy MoreFixtures.usb_st0) = Ok ["sda"].
Proof.
  destruct (list_disks_first_words Fixture.happy MoreFixtures.usb_st0 0 0
              ("NAME TYPE" ++ nl ++ "sda disk" ++ nl ++ "sda1 part" ++ nl)
              ("sda disk" ++ nl) eq_refl eq_refl) as [H _].
  destruct H as [names [Hn [Hm _]]].
  - repeat constructor; discriminate.
  - rewrite Hn, Hm. reflexivity.
Defined.
